(** * Verification of the session-backed code execution tool

    Shallow embedding of [execute_in_dynamic_session] and the request
    bookkeeping of [Chat.post] (src/main.py), and of [execute_code]
    (src/session-container/server.py).

    Conventions of the embedding:
    - JSON bodies are values of [json]; a Python [dict] decoded from JSON is
      an association list, and a lookup returns the last binding of a key
      (what [json.loads] keeps for duplicate keys).
    - Python exceptions are values of [exn]; the tool state is threaded
      explicitly through the monad [M], so the mutations made before an
      exception are kept, as in Python.
    - Outbound effects (token request, HTTP calls, sleeps) are recorded in
      a trace of [event]s; their results come from an environment [env]
      that plays the role of the external collaborators. *)

From Stdlib Require Import String Ascii List ZArith Bool Lia Permutation.
Import ListNotations.
Open Scope string_scope.
Set Warnings "-register-all".

(** ** JSON values and the Python operations the code applies to them *)

Inductive json : Type :=
| JNull
| JBool (b : bool)
| JNum (z : Z)
| JStr (s : string)
| JArr (l : list json)
| JObj (l : list (string * json)).

(** Python truthiness. *)
Definition truthy (v : json) : bool :=
  match v with
  | JNull => false
  | JBool b => b
  | JNum z => negb (Z.eqb z 0)
  | JStr s => negb (String.eqb s "")
  | JArr l => match l with [] => false | _ => true end
  | JObj l => match l with [] => false | _ => true end
  end.

(** [v == s] for a string literal [s]. *)
Definition py_eq_str (v : json) (s : string) : bool :=
  match v with JStr t => String.eqb t s | _ => false end.

(** [v != 0]; [True == 1] and [False == 0] in Python. *)
Definition py_ne_zero (v : json) : bool :=
  match v with
  | JNum z => negb (Z.eqb z 0)
  | JBool b => b
  | _ => true
  end.

(** Substring test [k in s] on Python strings. *)
Fixpoint is_prefix (k s : string) : bool :=
  match k, s with
  | EmptyString, _ => true
  | String a k', String b s' => Ascii.eqb a b && is_prefix k' s'
  | String _ _, EmptyString => false
  end.

Fixpoint contains (k s : string) : bool :=
  match s with
  | EmptyString => is_prefix k s
  | String _ s' => is_prefix k s || contains k s'
  end.

(** Python exceptions the modelled code can raise. *)
Inductive exn : Type :=
| TypeError (msg : string)
| AttributeError (msg : string)
| KeyError (key : string)
| JSONDecodeError (msg : string)  (** [json.JSONDecodeError], with the decoder's message *)
| RequestTimeout
| RequestError (msg : string)
| TimeoutExpired (timeout : json).  (** [subprocess.TimeoutExpired], with its [timeout] *)

Definition exn_str (e : exn) : string :=
  match e with
  | TypeError m => m
  | AttributeError m => m
  | KeyError k => "'" ++ k ++ "'"
  | JSONDecodeError m => m
  | RequestTimeout => "Read timed out."
  | RequestError m => m
  | TimeoutExpired _ => "Command timed out"
  end.

(** Lookup in a decoded JSON object: the last binding of the key wins. *)
Fixpoint obj_lookup (l : list (string * json)) (k : string) : option json :=
  match l with
  | [] => None
  | (k', v) :: l' =>
      match obj_lookup l' k with
      | Some w => Some w
      | None => if String.eqb k k' then Some v else None
      end
  end.

Definition obj_has (l : list (string * json)) (k : string) : bool :=
  existsb (fun kv => String.eqb (fst kv) k) l.

(** [type(v).__name__]. *)
Definition py_type_name (v : json) : string :=
  match v with
  | JNull => "NoneType"
  | JBool _ => "bool"
  | JNum _ => "int"
  | JStr _ => "str"
  | JArr _ => "list"
  | JObj _ => "dict"
  end.

(** [AttributeError] raised by [v.attr]. *)
Definition no_attribute (v : json) (attr : string) : exn :=
  AttributeError ("'" ++ py_type_name v ++ "' object has no attribute '" ++ attr ++ "'").

(** [k in v] for a string [k]: substring, list membership or dict key. *)
Definition py_in (k : string) (v : json) : exn + bool :=
  match v with
  | JStr s => inr (contains k s)
  | JArr l => inr (existsb (fun x => py_eq_str x k) l)
  | JObj l => inr (obj_has l k)
  | _ => inl (TypeError ("argument of type '" ++ py_type_name v ++ "' is not iterable"))
  end.

(** [v.get(k, d)]: only dicts have [get]. *)
Definition py_get (v : json) (k : string) (d : json) : exn + json :=
  match v with
  | JObj l => match obj_lookup l k with Some w => inr w | None => inr d end
  | _ => inl (no_attribute v "get")
  end.

(** [v[k]] for a string key. *)
Definition py_index (v : json) (k : string) : exn + json :=
  match v with
  | JObj l => match obj_lookup l k with Some w => inr w | None => inl (KeyError k) end
  | JStr _ => inl (TypeError "string indices must be integers, not 'str'")
  | JArr _ => inl (TypeError "list indices must be integers or slices, not str")
  | _ => inl (TypeError ("'" ++ py_type_name v ++ "' object is not subscriptable"))
  end.

(** Decimal rendering of integers, for [str] of a return code. *)
Fixpoint pos_digits (fuel : nat) (p : positive) (acc : string) : string :=
  match fuel with
  | O => acc
  | S fuel' =>
      let q := Z.div (Zpos p) 10 in
      let r := Z.modulo (Zpos p) 10 in
      let acc' := String (ascii_of_nat (48 + Z.to_nat r)) acc in
      match q with
      | Zpos q' => pos_digits fuel' q' acc'
      | _ => acc'
      end
  end.

Definition Z_to_dec (z : Z) : string :=
  match z with
  | Z0 => "0"
  | Zpos p => pos_digits (Pos.size_nat p) p ""
  | Zneg p => "-" ++ pos_digits (Pos.size_nat p) p ""
  end.

Definition join (sep : string) (l : list string) : string :=
  match l with
  | [] => ""
  | x :: l' => fold_left (fun acc y => acc ++ sep ++ y) l' x
  end.

(** [repr] and [str] of decoded JSON (string escapes are not rendered). *)
Fixpoint py_repr (v : json) : string :=
  match v with
  | JNull => "None"
  | JBool true => "True"
  | JBool false => "False"
  | JNum z => Z_to_dec z
  | JStr s => "'" ++ s ++ "'"
  | JArr l => "[" ++ join ", " (map py_repr l) ++ "]"
  | JObj l => "{" ++ join ", " (map (fun kv => "'" ++ fst kv ++ "': " ++ py_repr (snd kv)) l) ++ "}"
  end.

Definition py_str (v : json) : string :=
  match v with JStr s => s | _ => py_repr v end.

Definition nl : string := String (ascii_of_nat 10) EmptyString.

(** ** Process state of src/main.py *)

(** One entry of [active_sessions]; [None] is a key not (yet) set in the
    Python dict of the session. *)
Record session := mk_session {
  created_at : string;
  execution_count : Z;
  last_stdout : json;
  last_stderr : json;
  last_used : option string;
  last_status : option string;
  last_returnCode : option json }.

(** One entry of [current_tools_used]. *)
Record tool_record := mk_tool {
  tool_name : string;
  tool_icon : string;
  tool_description : string;
  tool_session_id : option string }.

(** The module-level globals: [active_sessions] (a dict, kept in insertion
    order), [current_tools_used] and [current_request_sessions] (a set). *)
Record state := mk_state {
  active_sessions : list (string * session);
  current_tools_used : list tool_record;
  current_request_sessions : list string }.

(** ** External collaborators *)

Record http_response := mk_response {
  status_code : Z;
  body : string + json;          (** [inl m]: [response.json()] raises, with message [m] *)
  location : option string;      (** the [Location] header *)
  text : string }.

(** Outcome of [requests.post]; [PostFail] is any [RequestException]. *)
Inductive post_outcome :=
| PostOk (r : http_response)
| PostFail (msg : string).

(** Outcome of one [requests.get] on the polling URL. *)
Inductive poll_outcome :=
| PollOk (r : http_response)
| PollRaise (e : exn).

(** Everything one tool call gets from outside the process: configuration,
    the random [uuid4().hex], the clock, the credential, and the sandbox. *)
Record env := mk_env {
  SESSION_POOL_ENDPOINT : option string;
  SESSION_POOL_AUDIENCE : string;
  uuid_hex : string;
  now : string;
  auth : string + string;        (** [inl] error message, [inr] token *)
  post : post_outcome;
  polls : nat -> poll_outcome }.   (** outcome of the i-th poll *)

(** Outbound effects, in order. *)
Inductive event :=
| EvGetToken (audience : string)
| EvPost (url token : string) (payload : json)
| EvSleep (seconds : Z)
| EvGet (url token : string).

(** ** State and exception monad *)

Definition M (A : Type) : Type :=
  state -> list event -> state * list event * (exn + A).

Definition ret {A} (a : A) : M A := fun s t => (s, t, inr a).

Definition bind {A B} (m : M A) (f : A -> M B) : M B :=
  fun s t =>
    match m s t with
    | (s', t', inr a) => f a s' t'
    | (s', t', inl e) => (s', t', inl e)
    end.

Notation "x <- m ;; k" := (bind m (fun x => k))
  (at level 61, m at next level, right associativity).
Notation "m ;; k" := (bind m (fun _ => k))
  (at level 61, right associativity).

Definition raise {A} (e : exn) : M A := fun s t => (s, t, inl e).

Definition lift {A} (r : exn + A) : M A := fun s t => (s, t, r).

Definition get : M state := fun s t => (s, t, inr s).

Definition modify (f : state -> state) : M unit := fun s t => (f s, t, inr tt).

Definition emit (ev : event) : M unit := fun s t => (s, (t ++ [ev])%list, inr tt).

Definition try_catch {A} (m : M A) (h : exn -> M A) : M A :=
  fun s t =>
    match m s t with
    | (s', t', inl e) => h e s' t'
    | r => r
    end.

#[local] Arguments bind {A B} m f _ _ : simpl never.

(** ** The session store *)

Definition has_key (l : list (string * session)) (k : string) : bool :=
  existsb (fun kv => String.eqb (fst kv) k) l.

Definition keys (l : list (string * session)) : list string := map fst l.

(** [list(active_sessions.keys())[-1]] when the dict is non-empty. *)
Definition last_key (l : list (string * session)) : option string :=
  match rev l with
  | (k, _) :: _ => Some k
  | [] => None
  end.

Fixpoint lookup_session (l : list (string * session)) (k : string) : option session :=
  match l with
  | [] => None
  | (k', r) :: l' => if String.eqb k' k then Some r else lookup_session l' k
  end.

Definition set_sessions (l : list (string * session)) (st : state) : state :=
  mk_state l (current_tools_used st) (current_request_sessions st).

Definition map_upd (k : string) (f : session -> session) (l : list (string * session))
  : list (string * session) :=
  map (fun kv => if String.eqb (fst kv) k then (fst kv, f (snd kv)) else kv) l.

(** [active_sessions[k][field] = v]: [KeyError] when [k] is absent. *)
Definition upd_session (k : string) (f : session -> session) : M unit :=
  st <- get;;
  if has_key (active_sessions st) k then
    modify (set_sessions (map_upd k f (active_sessions st)))
  else raise (KeyError k).

Definition get_session (k : string) : M session :=
  st <- get;;
  match lookup_session (active_sessions st) k with
  | Some r => ret r
  | None => raise (KeyError k)
  end.

Definition set_last_stdout (v : json) (r : session) : session :=
  mk_session (created_at r) (execution_count r) v (last_stderr r)
    (last_used r) (last_status r) (last_returnCode r).
Definition set_last_stderr (v : json) (r : session) : session :=
  mk_session (created_at r) (execution_count r) (last_stdout r) v
    (last_used r) (last_status r) (last_returnCode r).
Definition set_last_used (v : string) (r : session) : session :=
  mk_session (created_at r) (execution_count r) (last_stdout r) (last_stderr r)
    (Some v) (last_status r) (last_returnCode r).
Definition set_last_status (v : string) (r : session) : session :=
  mk_session (created_at r) (execution_count r) (last_stdout r) (last_stderr r)
    (last_used r) (Some v) (last_returnCode r).
Definition set_last_returnCode (v : json) (r : session) : session :=
  mk_session (created_at r) (execution_count r) (last_stdout r) (last_stderr r)
    (last_used r) (last_status r) (Some v).
Definition incr_execution_count (r : session) : session :=
  mk_session (created_at r) (execution_count r + 1) (last_stdout r) (last_stderr r)
    (last_used r) (last_status r) (last_returnCode r).

(** Lines 258-265: a new entry goes to the end of the dict. *)
Definition allocate_session (e : env) (k : string) : M unit :=
  st <- get;;
  if has_key (active_sessions st) k then ret tt
  else modify (set_sessions (app (active_sessions st)
         [(k, mk_session (now e) 0 (JStr "") (JStr "") None None None)])).

(** ** [execute_in_dynamic_session] (src/main.py, lines 128-436) *)

(** Lines 155-162: reuse the last key of [active_sessions], else
    [uuid.uuid4().hex[:12]]. *)
Definition pick_or_create_session (st : state) (e : env) : string :=
  match last_key (active_sessions st) with
  | Some k => k
  | None => substring 0 12 (uuid_hex e)
  end.

Definition exec_tool_record (session_id : string) : tool_record :=
  mk_tool "execute_in_dynamic_session" "📦" "Python Execution" (Some session_id).

(** Lines 166-174. *)
Definition track_state (session_id : string) (st : state) : state :=
  if existsb (String.eqb session_id) (current_request_sessions st) then st
  else mk_state (active_sessions st)
         (app (current_tools_used st) [exec_tool_record session_id])
         (session_id :: current_request_sessions st).

Definition track_session (session_id : string) : M unit :=
  modify (track_state session_id).

(** [if not SESSION_POOL_ENDPOINT]: unset or empty. *)
Definition endpoint_configured (e : env) : bool :=
  match SESSION_POOL_ENDPOINT e with
  | Some s => negb (String.eqb s "")
  | None => false
  end.

Definition endpoint_str (e : env) : string :=
  match SESSION_POOL_ENDPOINT e with Some s => s | None => "None" end.

Definition config_error_report : string :=
  "❌ Configuration Error: Azure Container Apps session pool not configured. Set AZURE_CONTAINER_APPS_SESSION_POOL_ENDPOINT environment variable.".

(** The first [try] block, lines 153-182 (the debug-file write at lines
    145-151 has no effect on the modelled state): [inl] is an early report,
    [inr] the session id to continue with. *)
Definition start_execution (e : env) : M (string + string) :=
  st <- get;;
  let session_id := pick_or_create_session st e in
  track_session session_id;;
  if endpoint_configured e then ret (inr session_id)
  else ret (inl config_error_report).

Definition execution_payload (code : string) : json :=
  JObj [("properties", JObj [("codeInputType", JStr "inline");
                             ("executionType", JStr "synchronous");
                             ("timeoutInSeconds", JNum 60);
                             ("code", JStr code)]);
        ("code", JStr code);
        ("language", JStr "python")].

Definition parse_body (r : http_response) : exn + json :=
  match body r with inr j => inr j | inl m => inl (JSONDecodeError m) end.

Definition error_keywords : list string :=
  ["Error:"; "Traceback"; "Exception:"; "ImportError:"; "ModuleNotFoundError:";
   "SyntaxError:"; "NameError:"; "TypeError:"; "ValueError:"; "AttributeError:"].

(** [any(error_keyword in stdout for error_keyword in [...])]. *)
Fixpoint py_any_in (ks : list string) (v : json) : exn + bool :=
  match ks with
  | [] => inr false
  | k :: ks' =>
      match py_in k v with
      | inl ex => inl ex
      | inr true => inr true
      | inr false => py_any_in ks' v
      end
  end.

(** Lines 277-314: the wrapped ("properties") shape. *)
Definition classify_wrapped (session_id : string) (result : json) : M unit :=
  props <- lift (py_index result "properties");;
  stdout <- lift (py_get props "stdout" (JStr ""));;
  stderr <- lift (py_get props "stderr" (JStr ""));;
  status <- lift (py_get props "status" (JStr ""));;
  return_code <- lift (py_get props "returnCode" JNull);;
  upd_session session_id (set_last_stdout stdout);;
  upd_session session_id (set_last_stderr stderr);;
  upd_session session_id (set_last_returnCode return_code);;
  has_error_in_stdout <- lift (py_any_in error_keywords stdout);;
  if truthy stderr || has_error_in_stdout || py_eq_str status "Failed"
     || (truthy return_code && py_ne_zero return_code) then
    upd_session session_id (set_last_status "Failed");;
    (if has_error_in_stdout && negb (truthy stderr) then
       upd_session session_id (set_last_stderr stdout);;
       upd_session session_id (set_last_stdout (JStr ""))
     else ret tt)
  else upd_session session_id (set_last_status "Success").

(** Lines 319-357: the direct shape. *)
Definition classify_direct (session_id : string) (result : json) : M unit :=
  stdout <- lift (py_get result "output" (JStr ""));;
  stderr <- lift (py_get result "error" (JStr ""));;
  return_code <- lift (py_get result "return_code" (JNum 0));;
  success <- lift (py_get result "success" (JBool true));;
  has_error_in_stdout <- lift (py_any_in error_keywords stdout);;
  if truthy stderr || has_error_in_stdout || negb (truthy success)
     || py_ne_zero return_code then
    (if has_error_in_stdout && negb (truthy stderr) then
       upd_session session_id (set_last_stderr stdout);;
       upd_session session_id (set_last_stdout (JStr ""))
     else
       upd_session session_id (set_last_stdout stdout);;
       upd_session session_id (set_last_stderr stderr));;
    upd_session session_id (set_last_status "Failed");;
    upd_session session_id
      (set_last_returnCode (if py_ne_zero return_code then return_code else JNum 1))
  else
    upd_session session_id (set_last_stdout stdout);;
    upd_session session_id (set_last_stderr stderr);;
    upd_session session_id (set_last_status "Success");;
    upd_session session_id (set_last_returnCode return_code).

Definition failed_report (session_id code : string) (return_code out : json) : string :=
  "❌ **Code Execution Failed**" ++ nl ++ nl ++
  "**Session ID:** " ++ substring 0 12 session_id ++ "..." ++ nl ++
  "**Return Code:** " ++ py_str return_code ++ nl ++ nl ++
  "**Code Executed:**" ++ nl ++ "```python" ++ nl ++ code ++ nl ++ "```" ++ nl ++ nl ++
  "**Error:**" ++ nl ++ "```" ++ nl ++ py_str out ++ nl ++ "```" ++ nl.

Definition success_report (session_id code : string) (stdout : json) : string :=
  "✅ **Code Execution Successful**" ++ nl ++ nl ++
  "**Session ID:** " ++ substring 0 12 session_id ++ "..." ++ nl ++ nl ++
  "**Code Executed:**" ++ nl ++ "```python" ++ nl ++ code ++ nl ++ "```" ++ nl ++ nl ++
  "**Output:**" ++ nl ++ "```" ++ nl ++
  (if truthy stdout then py_str stdout else "(no output)") ++ nl ++ "```" ++ nl.

(** Lines 359-398, reading back the stored entry. *)
Definition format_report (session_id code : string) (r : session) : string :=
  let return_code := match last_returnCode r with Some v => v | None => JNum 0 end in
  let status := match last_status r with Some s => s | None => "Success" end in
  let stderr := last_stderr r in
  let stdout := last_stdout r in
  if String.eqb status "Failed" || py_ne_zero return_code || truthy stderr then
    failed_report session_id code return_code (if truthy stderr then stderr else stdout)
  else success_report session_id code stdout.

(** Lines 253-400: HTTP 200. *)
Definition handle_200 (e : env) (session_id code : string) (resp : http_response) : M string :=
  result <- lift (parse_body resp);;
  allocate_session e session_id;;
  upd_session session_id incr_execution_count;;
  upd_session session_id (set_last_used (now e));;
  is_wrapped <- lift (py_in "properties" result);;
  (if is_wrapped then classify_wrapped session_id result
   else classify_direct session_id result);;
  r <- get_session session_id;;
  ret (format_report session_id code r).

Definition poll_timeout_report : string :=
  "⏳ Code execution initiated but timed out waiting for result. Check session pool status.".

Definition no_poll_url_report : string :=
  "⏳ Code execution accepted but no polling URL provided.".

(** One iteration of the loop at lines 408-416: [Some] the report to
    return, [None] to go on; [i] is the index of the poll. *)
Definition poll_attempt (e : env) (token url : string) (i : nat) : M (option string) :=
  emit (EvSleep 1);;
  emit (EvGet url token);;
  match polls e i with
  | PollRaise ex => raise ex
  | PollOk pr =>
      if Z.eqb (status_code pr) 200 then
        result <- lift (parse_body pr);;
        props <- lift (py_get result "properties" (JObj []));;
        status <- lift (py_get props "status" JNull);;
        if py_eq_str status "Completed" then
          props' <- lift (py_get result "properties" (JObj []));;
          execution_result <- lift (py_get props' "result" (JStr (py_str result)));;
          ret (Some ("✅ Code executed successfully:" ++ nl ++ nl ++ py_str execution_result))
        else ret None
      else ret None
  end.

(** Lines 407-417: [fuel] attempts left, [i] the index of the next poll. *)
Fixpoint poll_loop (e : env) (token url : string) (i fuel : nat) : M string :=
  match fuel with
  | O => ret poll_timeout_report
  | S fuel' =>
      r <- poll_attempt e token url i;;
      match r with
      | Some report => ret report
      | None => poll_loop e token url (S i) fuel'
      end
  end.

(** Lines 402-420: HTTP 202. *)
Definition handle_202 (e : env) (token : string) (resp : http_response) : M string :=
  match location resp with
  | Some poll_url =>
      if String.eqb poll_url "" then ret no_poll_url_report
      else poll_loop e token poll_url 0 10
  | None => ret no_poll_url_report
  end.

(** The second [try] block, lines 184-425. *)
Definition run_execution (e : env) (code session_id : string) : M string :=
  emit (EvGetToken (SESSION_POOL_AUDIENCE e));;
  match auth e with
  | inl err => ret ("Authentication error: Unable to get access token. Error: " ++ err)
  | inr token =>
      let session_url := endpoint_str e ++ "/execute?identifier=" ++ session_id in
      emit (EvPost session_url token (execution_payload code));;
      match post e with
      | PostFail msg =>
          ret ("Network error: Unable to connect to session pool. Error: " ++ msg)
      | PostOk resp =>
          if Z.eqb (status_code resp) 200 then handle_200 e session_id code resp
          else if Z.eqb (status_code resp) 202 then handle_202 e token resp
          else ret ("❌ Execution Error: Session execution failed (HTTP "
                    ++ Z_to_dec (status_code resp) ++ "): " ++ text resp)
      end
  end.

(** Lines 427-434. *)
Definition execution_error_report (ex : exn) : M string :=
  match ex with
  | RequestTimeout =>
      ret "⏰ Timeout Error: Session execution timed out after 30 seconds"
  | _ => ret ("❌ System Error: Unexpected error during session execution: " ++ exn_str ex)
  end.

Definition execute_in_dynamic_session (e : env) (code : string) : M string :=
  r <- try_catch (start_execution e)
         (fun ex => ret (inl ("❌ Function Error: " ++ exn_str ex)));;
  match r with
  | inl report => ret report
  | inr session_id => try_catch (run_execution e code session_id) execution_error_report
  end.

(** ** The other tool and the per-request bookkeeping *)

(** [search_tools_available] (lines 113-126). *)
Definition search_tools_available : M string :=
  modify (fun st => mk_state (active_sessions st)
           (app (current_tools_used st)
                [mk_tool "search_tools_available" "🔧" "Tool discovery" None])
           (current_request_sessions st));;
  ret ("Available AI Tools:" ++ nl ++ nl ++
       "🔍 search_tools_available(query) - Discover available tools and capabilities" ++ nl ++
       "📦 execute_in_dynamic_session(code) - Execute Python code in secure Azure Container Apps session" ++ nl ++ nl ++
       "The AI agent automatically selects the appropriate tool(s) based on your request!").

(** A tool call chosen by the (external) agent, with the environment the
    Execution Tool meets when it runs. *)
Inductive tool_call :=
| CallSearch
| CallExec (e : env) (code : string).

Definition run_tool (c : tool_call) : M string :=
  match c with
  | CallSearch => search_tools_available
  | CallExec e code => execute_in_dynamic_session e code
  end.

Fixpoint run_calls (cs : list tool_call) : M (list string) :=
  match cs with
  | [] => ret []
  | c :: cs' => r <- run_tool c;; rs <- run_calls cs';; ret (r :: rs)
  end.

(** Lines 1019-1022 of [Chat.post]. *)
Definition reset_request_tracking : M unit :=
  modify (fun st => mk_state (active_sessions st) [] []).

(** The part of [Chat.post] that touches the globals: reset, then the
    agent's tool calls, then [tools_used = current_tools_used.copy()]. *)
Definition chat_request (cs : list tool_call) : M (list tool_record) :=
  reset_request_tracking;;
  _ <- run_calls cs;;
  st <- get;;
  ret (current_tools_used st).

(** Running a computation from a state with an empty trace. *)
Definition run {A} (m : M A) (st : state) : state * list event * (exn + A) := m st [].

Definition final_state {A} (m : M A) (st : state) : state := fst (fst (run m st)).
Definition trace_of {A} (m : M A) (st : state) : list event := snd (fst (run m st)).
Definition result_of {A} (m : M A) (st : state) : exn + A := snd (run m st).

(** The entry stored under [k] after running [m]. *)
Definition stored {A} (m : M A) (st : state) (k : string) : option session :=
  lookup_session (active_sessions (final_state m st)) k.

(** ** Sandbox responses of the two wire shapes *)

(** A JSON field that may be absent, [null], or carry a value. *)
Inductive field (A : Type) : Type :=
| Absent
| Null
| Val (a : A).
Arguments Absent {A}.
Arguments Null {A}.
Arguments Val {A} a.

Definition field_entry {A} (k : string) (inj : A -> json) (f : field A)
  : list (string * json) :=
  match f with
  | Absent => []
  | Null => [(k, JNull)]
  | Val a => [(k, inj a)]
  end.

Definition str_entry (k : string) (o : option string) : list (string * json) :=
  match o with None => [] | Some s => [(k, JStr s)] end.

(** Shape A: [{"properties": {"status", "stdout", "stderr", "returnCode"}}]. *)
Definition wrapped_body (status : field string) (stdout stderr : option string)
  (returnCode : field Z) : json :=
  JObj [("properties",
         JObj (field_entry "status" JStr status ++ str_entry "stdout" stdout
               ++ str_entry "stderr" stderr ++ field_entry "returnCode" JNum returnCode)%list)].

(** Shape B: [{"output", "error", "return_code", "success"}]. *)
Definition direct_body (output error : option string) (return_code : field Z)
  (success : field bool) : json :=
  JObj (str_entry "output" output ++ str_entry "error" error
        ++ field_entry "return_code" JNum return_code
        ++ field_entry "success" JBool success)%list.

(** The normalized text of a string field ([""] when absent). *)
Definition norm (o : option string) : string :=
  match o with Some s => s | None => "" end.

(** The value [d.get(k, default)] reads for a field. *)
Definition field_value {A} (inj : A -> json) (default : json) (f : field A) : json :=
  match f with Absent => default | Null => JNull | Val a => inj a end.

(** [has_error_in_stdout] on a string. *)
Definition has_error (s : string) : bool :=
  existsb (fun k => contains k s) error_keywords.

(** ** The sandbox server: [execute_code] (src/session-container/server.py, lines 40-193) *)

Inductive http_method := GET | POST.

(** What the one [subprocess.run] of a request does: the process exits with
    its captured output, or [TimeoutExpired] is raised, or another exception
    (from the tempfile, the executable, ...). *)
Inductive proc_outcome :=
| ProcDone (stdout stderr : string) (returncode : Z)
| ProcTimeout
| ProcRaise (ex : exn).

Record server_env := mk_server_env {
  subprocess_run : proc_outcome;
  format_exc : string }.          (** [traceback.format_exc()] *)

(** A request: its method and [request.get_json(force=True)], [inl] the
    message of the parse failure. *)
Record request := mk_request {
  method : http_method;
  get_json : string + json }.

Record reply := mk_reply {
  reply_status : Z;
  reply_body : json }.

(** The error monad of plain Python code. *)
Definition sbind {A B} (m : exn + A) (f : A -> exn + B) : exn + B :=
  match m with inl ex => inl ex | inr a => f a end.

Notation "x <-- m ;; k" := (sbind m (fun x => k))
  (at level 61, m at next level, right associativity).

(** Strings are held as their UTF-8 encoding.  [str.isspace] on a
    one-byte character: U+0009..U+000D and U+001C..U+0020. *)
Definition is_py_space (c : ascii) : bool :=
  let n := nat_of_ascii c in
  ((9 <=? n) && (n <=? 13))%nat || ((28 <=? n) && (n <=? 32))%nat.

(** [str.isspace] on a two-byte character: U+0085 and U+00A0. *)
Definition is_py_space2 (c0 c1 : ascii) : bool :=
  let a := nat_of_ascii c0 in
  let b := nat_of_ascii c1 in
  (a =? 194)%nat && ((b =? 133) || (b =? 160))%nat.

(** [str.isspace] on a three-byte character: U+1680, U+2000..U+200A, U+2028,
    U+2029, U+202F, U+205F and U+3000. *)
Definition is_py_space3 (c0 c1 c2 : ascii) : bool :=
  let a := nat_of_ascii c0 in
  let b := nat_of_ascii c1 in
  let c := nat_of_ascii c2 in
  ((a =? 225) && (b =? 154) && (c =? 128))%nat
  || ((a =? 226) && (b =? 128)
      && (((128 <=? c) && (c <=? 138)) || (c =? 168) || (c =? 169) || (c =? 175)))%nat
  || ((a =? 226) && (b =? 129) && (c =? 159))%nat
  || ((a =? 227) && (b =? 128) && (c =? 128))%nat.

(** Every character of the UTF-8 encoded text is whitespace for Python
    ([str.isspace] on each code point, true on the empty text); so
    [s.strip()] is empty exactly when [py_all_space s]. *)
Fixpoint py_all_space (l : list ascii) : bool :=
  match l with
  | [] => true
  | c0 :: r0 =>
      if is_py_space c0 then py_all_space r0
      else match r0 with
           | [] => false
           | c1 :: r1 =>
               if is_py_space2 c0 c1 then py_all_space r1
               else match r1 with
                    | [] => false
                    | c2 :: r2 => if is_py_space3 c0 c1 c2 then py_all_space r2 else false
                    end
           end
  end.

(** [bool(v and v.strip())]. *)
Definition has_content (v : json) : exn + bool :=
  if negb (truthy v) then inr false
  else match v with
       | JStr s => inr (negb (py_all_space (list_ascii_of_string s)))
       | _ => inl (no_attribute v "strip")
       end.

Definition lower_ascii (c : ascii) : ascii :=
  let n := nat_of_ascii c in
  if ((65 <=? n) && (n <=? 90))%nat then ascii_of_nat (n + 32) else c.

(** [v.lower()], lowering the ASCII letters.  The result is only compared
    with the ASCII names of the supported languages, and no non-ASCII
    character lowers to a string of ASCII letters other than "k" (from
    U+212A), which none of those names contains: the comparisons come out
    as with Python's full Unicode [lower]. *)
Definition py_lower (v : json) : exn + string :=
  match v with
  | JStr s => inr (string_of_list_ascii (map lower_ascii (list_ascii_of_string s)))
  | _ => inl (no_attribute v "lower")
  end.

Fixpoint str_repeat (n : nat) (s : string) : string :=
  match n with O => "" | S n' => s ++ str_repeat n' s end.

(** [v * 1000]. *)
Definition py_mul1000 (v : json) : exn + json :=
  match v with
  | JNum z => inr (JNum (z * 1000))
  | JBool b => inr (JNum (if b then 1000 else 0))
  | JStr s => inr (JStr (str_repeat 1000 s))
  | JArr l => inr (JArr (concat (repeat l 1000)))
  | _ => inl (TypeError ("unsupported operand type(s) for *: '" ++ py_type_name v ++ "' and 'int'"))
  end.

(** [{**v}]: only a mapping can be unpacked. *)
Definition py_mapping (v : json) : exn + list (string * json) :=
  match v with
  | JObj l => inr l
  | _ => inl (TypeError ("'" ++ py_type_name v ++ "' object is not a mapping"))
  end.

(** [**({k: v} if v is not None else {})]. *)
Definition opt_entry (k : string) (v : json) : list (string * json) :=
  match v with JNull => [] | _ => [(k, v)] end.

Definition error_reply (msg : string) : reply :=
  mk_reply 400 (JObj [("error", JStr msg)]).

Definition status_of (return_code : Z) : string :=
  if Z.eqb return_code 0 then "Success" else "Failed".

(** Lines 101-109. *)
Definition shell_reply (stdout stderr : string) (return_code : Z) : reply :=
  mk_reply 200 (JObj [("properties",
    JObj [("status", JStr (status_of return_code)); ("stdout", JStr stdout);
          ("stderr", JStr stderr); ("returnCode", JNum return_code);
          ("executionTimeInMilliseconds", JNum 0)])]).

(** Lines 166-175. *)
Definition code_reply (stdout stderr : string) (return_code : Z) : reply :=
  mk_reply 200 (JObj [("properties",
    JObj [("status", JStr (status_of return_code)); ("stdout", JStr stdout);
          ("stderr", JStr stderr); ("returnCode", JNum return_code);
          ("executionResult", JStr (if Z.eqb return_code 0 then stdout else stderr));
          ("executionTimeInMilliseconds", JNum 0)])]).

(** Lines 178-184. *)
Definition timeout_reply (ms : json) : reply :=
  mk_reply 408 (JObj [("properties",
    JObj [("status", JStr "Failed"); ("stderr", JStr "Execution timed out");
          ("executionTimeInMilliseconds", ms)])]).

(** Lines 187-193. *)
Definition internal_error_reply (msg tb : string) : reply :=
  mk_reply 500 (JObj [("properties",
    JObj [("status", JStr "Failed");
          ("stderr", JStr ("Execution error: " ++ msg ++ nl ++ tb));
          ("executionTimeInMilliseconds", JNum 0)])]).

(** [subprocess.run(..., timeout=timeout)] and the reply built from it. *)
Definition run_subprocess (se : server_env) (timeout : json)
  (k : string -> string -> Z -> reply) : exn + reply :=
  match subprocess_run se with
  | ProcDone stdout stderr return_code => inr (k stdout stderr return_code)
  | ProcTimeout => inl (TimeoutExpired timeout)
  | ProcRaise ex => inl ex
  end.

(** Lines 59-72: the nested properties, or ones built from top-level fields. *)
Definition request_properties (data : json) : exn + json :=
  properties <-- py_get data "properties" (JObj []);;
  if truthy properties then inr properties
  else
    tl_code <-- py_get data "code" JNull;;
    sc <-- py_get data "shellCommand" JNull;;
    tl_cmd <-- (if truthy sc then inr sc else py_get data "command" JNull);;
    tl_lang <-- py_get data "language" JNull;;
    t <-- py_get data "timeout" JNull;;
    tl_timeout <-- (if truthy t then inr t else py_get data "timeoutInSeconds" JNull);;
    base <-- py_mapping properties;;
    inr (JObj (base ++ opt_entry "code" tl_code ++ opt_entry "shellCommand" tl_cmd
               ++ opt_entry "language" tl_lang ++ opt_entry "timeoutInSeconds" tl_timeout)%list).

(** The body of the [try] block after [get_json], lines 55-175. Past the
    validation, [code] is truthy whenever [shell_command] is not, so the
    [elif code:] at line 111 is always taken when reached. *)
Definition execute_body (se : server_env) (data : json) : exn + reply :=
  if negb (truthy data) then inr (error_reply "No JSON data provided")
  else
    properties <-- request_properties data;;
    code <-- py_get properties "code" (JStr "");;
    shell_command <-- py_get properties "shellCommand" (JStr "");;
    language <-- py_get properties "language" (JStr "python");;
    timeout <-- py_get properties "timeoutInSeconds" (JNum 30);;
    has_code <-- has_content code;;
    has_shell_command <-- has_content shell_command;;
    if negb has_code && negb has_shell_command then
      inr (error_reply "No code or command provided")
    else if truthy shell_command then run_subprocess se timeout shell_reply
    else
      lang <-- py_lower language;;
      if String.eqb lang "python" || String.eqb lang "javascript" || String.eqb lang "js"
         || String.eqb lang "bash" || String.eqb lang "sh"
         || String.eqb lang "powershell" || String.eqb lang "pwsh"
      then run_subprocess se timeout code_reply
      else inr (error_reply ("Unsupported language: " ++ py_str language)).

(** The view; [inl] is an exception that escapes it (raised in the
    [TimeoutExpired] handler), which Flask turns into its own error page. *)
Definition execute_code (se : server_env) (req : request) : exn + reply :=
  match method req with
  | GET => inr (mk_reply 200 (JObj [("message", JStr "Execute endpoint is working");
                                    ("method", JStr "GET")]))
  | POST =>
      match get_json req with
      | inl msg => inr (error_reply ("JSON parsing failed: " ++ msg))
      | inr data =>
          match execute_body se data with
          | inr r => inr r
          | inl (TimeoutExpired timeout) =>
              ms <-- py_mul1000 timeout;;
              inr (timeout_reply ms)
          | inl ex => inr (internal_error_reply (exn_str ex) (format_exc se))
          end
      end
  end.


(** ** The other views of src/main.py *)

(** A key of a Python dict, as [hash] and [==] see it: [True == 1] and
    [False == 0]. *)
Inductive hkey := HNone | HNum (z : Z) | HStr (s : string).

Definition hkey_eqb (a b : hkey) : bool :=
  match a, b with
  | HNone, HNone => true
  | HNum x, HNum y => Z.eqb x y
  | HStr x, HStr y => String.eqb x y
  | _, _ => false
  end.

(** [hash(v)]: lists and dicts are unhashable. *)
Definition py_hash_key (v : json) : exn + hkey :=
  match v with
  | JNull => inr HNone
  | JBool b => inr (HNum (if b then 1 else 0))
  | JNum z => inr (HNum z)
  | JStr s => inr (HStr s)
  | JArr _ => inl (TypeError "unhashable type: 'list'")
  | JObj _ => inl (TypeError "unhashable type: 'dict'")
  end.

(** An [AgentThread] object, by identity. *)
Definition thread := nat.

(** [conversation_threads]: a dict from session keys to threads, in
    insertion order. *)
Fixpoint thread_lookup (l : list (hkey * thread)) (k : hkey) : option thread :=
  match l with
  | [] => None
  | (k', th) :: l' => if hkey_eqb k' k then Some th else thread_lookup l' k
  end.

(** [del conversation_threads[k]]. *)
Definition thread_delete (k : hkey) (l : list (hkey * thread)) : list (hkey * thread) :=
  filter (fun kv => negb (hkey_eqb (fst kv) k)) l.

(** The globals the views share: [conversation_threads] and the tool
    globals of [state]. *)
Record app_state := mk_app {
  conversation_threads : list (hkey * thread);
  tool_state : state }.

(** What one request to [Chat.post] gets from the agent framework and from
    the configuration read at startup. *)
Record chat_env := mk_chat_env {
  agent_configured : bool;               (** [agent] is not [None] *)
  new_thread : thread;                   (** what [agent.get_new_thread()] returns *)
  agent_calls : list tool_call;          (** the tool calls the agent makes in [agent.run] *)
  agent_result : exn + string;           (** [result.text], or what [agent.run] raises *)
  thread_messages : thread -> option Z;  (** [len(thread.messages)]; [None]: no such attribute *)
  AZURE_OPENAI_DEPLOYMENT : string;
  pool_endpoint : option string }.       (** [SESSION_POOL_ENDPOINT] *)

(** The dict [Chat.post] returns on success. *)
Record chat_response := mk_chat_response {
  response : string;
  response_session_id : json;
  response_agent : string;
  response_model : string;
  tools_used : list tool_record;
  tools_available : list string;
  conversation_length : Z;
  response_active_sessions : option (list (string * session)) }.  (** [None] when empty *)

(** How a view ends: [request.json] failed (Flask answers with its own 4xx
    page), an exception escapes the view (Flask's 500 page), the view
    returns [{"error": msg}, status], or it returns its result. *)
Inductive view_outcome (A : Type) :=
| BadRequest (msg : string)
| Raised (ex : exn)
| ViewError (status : Z) (msg : string)
| ViewOk (a : A).
Arguments BadRequest {A} msg.
Arguments Raised {A} ex.
Arguments ViewError {A} status msg.
Arguments ViewOk {A} a.

(** [v[:50]] in a debug print: strings and lists slice; a dict raises
    (the message of Python 3.11 and earlier). *)
Definition py_slice_check (v : json) : exn + unit :=
  match v with
  | JStr _ | JArr _ => inr tt
  | JNull => inl (TypeError "'NoneType' object is not subscriptable")
  | JBool _ => inl (TypeError "'bool' object is not subscriptable")
  | JNum _ => inl (TypeError "'int' object is not subscriptable")
  | JObj _ => inl (TypeError "unhashable type: 'slice'")
  end.

(** Lines 1019-1045, from the reset of the tracker to the deep copy of the
    store: [prompt[:50]], [agent.run] with its tool calls, [result.text]. *)
Definition chat_agent_run (ce : chat_env) (prompt : json)
  : M (string * list tool_record * list (string * session)) :=
  reset_request_tracking;;
  lift (py_slice_check prompt);;
  _ <- run_calls (agent_calls ce);;
  text <- lift (agent_result ce);;
  st <- get;;
  ret (text, current_tools_used st, active_sessions st).

(** Lines 1052-1054. *)
Definition tools_available_list (ce : chat_env) : list string :=
  "search_tools_available" ::
  match pool_endpoint ce with
  | Some s => if String.eqb s "" then [] else ["execute_in_dynamic_session"]
  | None => []
  end.

Definition agent_config_error : string :=
  "Azure OpenAI configuration required. Please set AZURE_OPENAI_ENDPOINT environment variable and ensure proper authentication.".

(** Lines 1014-1017: the thread of the session, created if missing. *)
Definition threads_with (ce : chat_env) (k : hkey) (l : list (hkey * thread))
  : list (hkey * thread) :=
  match thread_lookup l k with
  | Some _ => l
  | None => (l ++ [(k, new_thread ce)])%list
  end.

(** [Chat.post] (lines 994-1070); [request_json] is [request.json], [inl]
    when Flask fails to read it. *)
Definition Chat_post (ce : chat_env) (request_json : string + json) (a : app_state)
  : app_state * view_outcome chat_response :=
  match request_json with
  | inl msg => (a, BadRequest msg)
  | inr data =>
      match py_get data "prompt" (JStr "") with
      | inl ex => (a, Raised ex)
      | inr prompt =>
          match py_get data "session_id" (JStr "default") with
          | inl ex => (a, Raised ex)
          | inr session_id =>
              if negb (truthy prompt) then (a, ViewError 400 "No prompt provided")
              else if negb (agent_configured ce) then (a, ViewError 500 agent_config_error)
              else
                match py_hash_key session_id with
                | inl ex => (a, ViewError 500 (exn_str ex))
                | inr k =>
                    let threads := threads_with ce k (conversation_threads a) in
                    let th := match thread_lookup threads k with
                              | Some th => th
                              | None => new_thread ce
                              end in
                    match run (chat_agent_run ce prompt) (tool_state a) with
                    | (st, _, inl ex) => (mk_app threads st, ViewError 500 (exn_str ex))
                    | (st, _, inr (text, used, sessions)) =>
                        (mk_app threads st,
                         ViewOk (mk_chat_response text session_id
                                   "Microsoft Agent Framework SmartAssistant"
                                   (AZURE_OPENAI_DEPLOYMENT ce) used (tools_available_list ce)
                                   (match thread_messages ce th with Some n => n | None => 0 end)
                                   (match sessions with [] => None | _ => Some sessions end)))
                    end
                end
          end
      end
  end.

(** What one request to [ChatStream.post] gets from the agent framework. *)
Record stream_env := mk_stream_env {
  stream_agent_configured : bool;   (** [agent] is not [None] *)
  stream_new_thread : thread;       (** what [agent.get_new_thread()] returns *)
  stream_calls : list tool_call;    (** the tool calls made while streaming *)
  stream_chunks : list string;      (** [chunk.text] of each chunk, in order *)
  stream_error : option exn }.      (** raised by the stream after its chunks *)

(** The dict [ChatStream.post] returns on success. *)
Record stream_response := mk_stream_response {
  stream_text : string;
  stream_session_id : json;
  streaming : bool;
  chunks_received : Z;
  stream_agent : string }.

(** Lines 1099-1112: the texts kept by [if chunk.text:], in order. *)
Definition collect_stream (chunks : list string) : list string :=
  filter (fun s => negb (String.eqb s "")) chunks.

(** Lines 1096-1121, once the thread is found or created. *)
Definition stream_body (sv : stream_env) (threads : list (hkey * thread))
  (session_id : json) (a : app_state) : app_state * view_outcome stream_response :=
  if negb (stream_agent_configured sv) then
    (mk_app threads (tool_state a),
     ViewError 500 "'NoneType' object has no attribute 'run_stream'")
  else
    let st := final_state (run_calls (stream_calls sv)) (tool_state a) in
    match stream_error sv with
    | Some ex => (mk_app threads st, ViewError 500 (exn_str ex))
    | None =>
        let responses := collect_stream (stream_chunks sv) in
        (mk_app threads st,
         ViewOk (mk_stream_response (String.concat "" responses) session_id true
                   (Z.of_nat (length responses)) "Microsoft Agent Framework SmartAssistant"))
    end.

(** [ChatStream.post] (lines 1079-1124). *)
Definition ChatStream_post (sv : stream_env) (request_json : string + json) (a : app_state)
  : app_state * view_outcome stream_response :=
  match request_json with
  | inl msg => (a, BadRequest msg)
  | inr data =>
      match py_get data "prompt" (JStr "") with
      | inl ex => (a, Raised ex)
      | inr prompt =>
          match py_get data "session_id" (JStr "default") with
          | inl ex => (a, Raised ex)
          | inr session_id =>
              if negb (truthy prompt) then (a, ViewError 400 "No prompt provided")
              else
                match py_hash_key session_id with
                | inl ex => (a, ViewError 500 (exn_str ex))
                | inr k =>
                    match thread_lookup (conversation_threads a) k with
                    | Some _ => stream_body sv (conversation_threads a) session_id a
                    | None =>
                        if stream_agent_configured sv then
                          stream_body sv (conversation_threads a ++ [(k, stream_new_thread sv)])%list
                            session_id a
                        else (a, ViewError 500 "'NoneType' object has no attribute 'get_new_thread'")
                    end
                end
          end
      end
  end.

(** A UTF-8 continuation byte. *)
Definition is_utf8_cont (c : ascii) : bool :=
  let n := nat_of_ascii c in ((128 <=? n) && (n <=? 191))%nat.

(** [len(v)]: code points of a (UTF-8) string, items of a list, distinct
    keys of a dict. *)
Definition py_len (v : json) : exn + Z :=
  match v with
  | JStr s => inr (Z.of_nat (length (filter (fun c => negb (is_utf8_cont c))
                                             (list_ascii_of_string s))))
  | JArr l => inr (Z.of_nat (length l))
  | JObj l => inr (Z.of_nat (length (nodup string_dec (map fst l))))
  | JNull => inl (TypeError "object of type 'NoneType' has no len()")
  | JBool _ => inl (TypeError "object of type 'bool' has no len()")
  | JNum _ => inl (TypeError "object of type 'int' has no len()")
  end.

Definition error_body (msg : string) : json := JObj [("error", JStr msg)].

(** [TestSessionPayload.post] (lines 1129-1153); [request_json] is
    [request.get_json()], [inl] the message of what it raised. *)
Definition TestSessionPayload_post (request_json : string + json) : reply :=
  match request_json with
  | inl msg => mk_reply 500 (error_body msg)
  | inr data =>
      if negb (truthy data) then mk_reply 400 (error_body "No JSON data provided")
      else
        match (properties <-- py_get data "properties" (JObj []);;
               code <-- py_get properties "code" (JStr "");;
               n <-- py_len code;;
               has_code <-- has_content code;;
               if negb has_code then inr (mk_reply 400 (error_body "No code provided"))
               else inr (mk_reply 200 (JObj [("success", JBool true); ("code_received", code);
                                             ("length", JNum n)])))
        with
        | inl ex => mk_reply 500 (error_body (exn_str ex))
        | inr r => r
        end
  end.

(** [SessionManager.delete] (lines 1214-1220). *)
Definition SessionManager_delete (session_id : string) (a : app_state) : app_state * reply :=
  match thread_lookup (conversation_threads a) (HStr session_id) with
  | Some _ =>
      (mk_app (thread_delete (HStr session_id) (conversation_threads a)) (tool_state a),
       mk_reply 200 (JObj [("message", JStr ("Session " ++ session_id ++ " cleared"))]))
  | None =>
      (a, mk_reply 404 (JObj [("message", JStr ("Session " ++ session_id ++ " not found"))]))
  end.

(** Sample inputs used by the witnesses below. *)
Definition sample_env : env :=
  mk_env (Some "https://pool.example") "https://dynamicsessions.io/.default"
    "0123456789abcdef0123456789abcdef" "2024-01-01T00:00:00" (inr "token")
    (PostFail "unreachable") (fun _ => PollRaise (RequestError "unreachable")).

Definition empty_state : state := mk_state [] [] [].

(** A placeholder environment whose sandbox endpoint is not set. *)
Definition unconfigured_env : env :=
  mk_env None "https://dynamicsessions.io/.default"
    "0123456789abcdef0123456789abcdef" "2024-01-01T00:00:00" (inr "token")
    (PostFail "unreachable") (fun _ => PollRaise (RequestError "unreachable")).

(** A sandbox that accepts the execution (HTTP 202) and whose polling URL
    cannot be reached. *)
Definition accepted_env : env :=
  mk_env (Some "https://pool.example") "https://dynamicsessions.io/.default"
    "0123456789abcdef0123456789abcdef" "2024-01-01T00:00:00" (inr "token")
    (PostOk (mk_response 202 (inl "Expecting value: line 1 column 1 (char 0)") (Some "https://pool.example/operations/1") ""))
    (fun _ => PollRaise (RequestError "Connection refused")).

(** A sandbox that accepts the execution (HTTP 202) and whose job is still
    running at every poll. *)
Definition pending_env : env :=
  mk_env (Some "https://pool.example") "https://dynamicsessions.io/.default"
    "0123456789abcdef0123456789abcdef" "2024-01-01T00:00:00" (inr "token")
    (PostOk (mk_response 202 (inl "Expecting value: line 1 column 1 (char 0)") (Some "https://pool.example/operations/1") ""))
    (fun _ => PollOk (mk_response 200 (inr (JObj [("properties", JObj [("status", JStr "Running")])]))
                        None "")).

(** A sandbox server whose one subprocess times out. *)
Definition sample_server_env : server_env :=
  mk_server_env ProcTimeout "Traceback (most recent call last)".

(** A sandbox that runs the code and answers HTTP 200 with a JSON body of
    the direct shape. *)
Definition completed_env : env :=
  mk_env (Some "https://pool.example") "https://dynamicsessions.io/.default"
    "0123456789abcdef0123456789abcdef" "2024-01-01T00:00:00" (inr "token")
    (PostOk (mk_response 200 (inr (JObj [("output", JStr "1")])) None ""))
    (fun _ => PollRaise (RequestError "unreachable")).

(** A store holding one session, used three times already. *)
Definition one_session_state : state :=
  mk_state [("abc", mk_session "2023-12-31T00:00:00" 3 (JStr "") (JStr "") None None None)] [] [].

(** An agent that calls the discovery tool once and answers ["hi"]. *)
Definition sample_chat_env : chat_env :=
  mk_chat_env true 7 [CallSearch] (inr "hi") (fun _ => Some 2%Z) "gpt-4o"
    (Some "https://pool.example").

(** No conversation thread and empty tool globals. *)
Definition empty_app : app_state := mk_app [] empty_state.

(** An agent that streams three chunks, one of them empty. *)
Definition sample_stream_env : stream_env :=
  mk_stream_env true 9 [CallSearch] ["Hel"; ""; "lo"] None.

(** The ["default"] session already has a thread. *)
Definition threaded_app : app_state := mk_app [(HStr "default", 3%nat)] empty_state.

(** ** Notions used to state the properties *)

(** After [allocate_session] the key is present; its entry is the old one or
    a fresh one appended at the end. *)
Definition allocated (e : env) (k : string) (l : list (string * session)) :=
  if has_key l k then l
  else (l ++ [(k, mk_session (now e) 0 (JStr "") (JStr "") None None None)])%list.

(** Statement of C1 in the spec's words, for the direct shape: a null or
    absent return code counts as zero, and only [success == false] counts. *)
Definition spec_failed_direct (so se : option string) (rc : field Z) (success : field bool) : Prop :=
  norm se <> "" \/ has_error (norm so) = true \/ success = Val false
  \/ (exists z, rc = Val z /\ z <> 0%Z).

(** A computation keeps the invariant [P] of the state and the trace. *)
Definition preserves {A} (P : state -> list event -> Prop) (m : M A) : Prop :=
  forall s t, P s t -> P (fst (fst (m s t))) (snd (fst (m s t))).

(** An outbound POST, if the event is one, goes to session [S]. *)
Definition posts_to (S : string) (ev : event) : Prop :=
  match ev with
  | EvPost url _ _ => exists prefix, url = prefix ++ "/execute?identifier=" ++ S
  | _ => True
  end.

(** A tool record carries no session id or the id [S]. *)
Definition records_session (S : string) (r : tool_record) : Prop :=
  tool_session_id r = None \/ tool_session_id r = Some S.

(** The session ids carried by the records of a tools-used list. *)
Fixpoint session_ids (l : list tool_record) : list string :=
  match l with
  | [] => []
  | r :: l' =>
      match tool_session_id r with
      | Some k => k :: session_ids l'
      | None => session_ids l'
      end
  end.

Definition is_hex_digit (c : ascii) : bool :=
  let n := nat_of_ascii c in
  ((48 <=? n) && (n <=? 57))%nat || ((97 <=? n) && (n <=? 102))%nat.

Definition hex_string (s : string) : bool :=
  forallb is_hex_digit (list_ascii_of_string s).

(** What the [i]-th poll attempt yields: [inr (Some report)] when it returns,
    [inr None] when the loop goes on, [inl] when it raises. *)
Definition attempt_result (e : env) (token url : string) (i : nat) : exn + option string :=
  result_of (poll_attempt e token url i) empty_state.





(** The events of [n] poll attempts. *)
Definition poll_events (url token : string) (n : nat) : list event :=
  concat (repeat [EvSleep 1; EvGet url token] n).



(** The records [search_tools_available] appends. *)
Definition is_search_record (r : tool_record) : bool :=
  String.eqb (tool_name r) "search_tools_available".

(** The number of calls of [search_tools_available] in a list of tool calls. *)
Definition count_search (cs : list tool_call) : nat :=
  length (filter (fun c => match c with CallSearch => true | _ => false end) cs).

(** [s'] extends the per-request tracker of [s]: records appended at the end
    of [current_tools_used], session ids added to [current_request_sessions]. *)
Definition extends (s s' : state) : Prop :=
  (exists X, current_tools_used s' = (current_tools_used s ++ X)%list) /\
  (exists Y, current_request_sessions s' = (Y ++ current_request_sessions s)%list).

(** * Properties *)

Example Z_to_dec_ex : Z_to_dec 1203 = "1203" /\ Z_to_dec (-7) = "-7".
Proof. split; reflexivity. Qed.

(** ** Monad and store lemmas *)

Section MonadLemmas.

Lemma bind_ret_l {A B} (a : A) (f : A -> M B) st t :
  bind (ret a) f st t = f a st t.
Proof. reflexivity. Qed.

Lemma bind_lift_inr {A B} (a : A) (f : A -> M B) st t :
  bind (lift (inr a)) f st t = f a st t.
Proof. reflexivity. Qed.

Lemma bind_lift_inl {A B} (ex : exn) (f : A -> M B) st t :
  bind (lift (inl ex)) f st t = (st, t, inl ex).
Proof. reflexivity. Qed.

Lemma bind_assoc {A B C} (m : M A) (f : A -> M B) (g : B -> M C) st t :
  bind (bind m f) g st t = bind m (fun a => bind (f a) g) st t.
Proof. unfold bind. destruct (m st t) as [[s' t'] [e|a]]; reflexivity. Qed.

Lemma has_key_map_upd l k f k' :
  has_key (map_upd k f l) k' = has_key l k'.
Proof.
  induction l as [|[k0 r0] l IH]; simpl; auto.
  destruct (String.eqb k0 k); simpl; rewrite IH; reflexivity.
Qed.

Lemma keys_map_upd l k f : keys (map_upd k f l) = keys l.
Proof.
  induction l as [|[k0 r0] l IH]; simpl; auto.
  destruct (String.eqb k0 k); simpl; rewrite IH; reflexivity.
Qed.

Lemma lookup_map_upd l k f :
  lookup_session (map_upd k f l) k = option_map f (lookup_session l k).
Proof.
  induction l as [|[k0 r0] l IH]; simpl; auto.
  destruct (String.eqb k0 k) eqn:E; simpl; rewrite ?E; auto.
Qed.

Lemma map_upd_map_upd l k f g :
  map_upd k g (map_upd k f l) = map_upd k (fun r => g (f r)) l.
Proof.
  induction l as [|[k0 r0] l IH]; simpl; auto.
  destruct (String.eqb k0 k) eqn:E; simpl; rewrite ?E, IH; reflexivity.
Qed.

Lemma upd_session_run k f st t :
  has_key (active_sessions st) k = true ->
  upd_session k f st t = (set_sessions (map_upd k f (active_sessions st)) st, t, inr tt).
Proof. intros H. unfold upd_session, bind, get. rewrite H. reflexivity. Qed.

Lemma bind_upd_session {B} k f (g : unit -> M B) st t :
  has_key (active_sessions st) k = true ->
  bind (upd_session k f) g st t = g tt (set_sessions (map_upd k f (active_sessions st)) st) t.
Proof. intros H. unfold bind at 1. rewrite upd_session_run by exact H. reflexivity. Qed.

Lemma has_key_lookup l k :
  has_key l k = true -> exists r, lookup_session l k = Some r.
Proof.
  induction l as [|[k0 r0] l IH]; simpl; [discriminate|].
  destruct (String.eqb k0 k) eqn:E; simpl; eauto.
Qed.

Lemma has_key_app l l' k : has_key (l ++ l') k = has_key l k || has_key l' k.
Proof. unfold has_key. apply existsb_app. Qed.

Lemma lookup_app_absent l l' k :
  has_key l k = false -> lookup_session (l ++ l') k = lookup_session l' k.
Proof.
  induction l as [|[k0 r0] l IH]; simpl; auto.
  destruct (String.eqb k0 k) eqn:E; simpl; [discriminate|auto].
Qed.

Lemma bind_allocate_session {B} e k (g : unit -> M B) st t :
  bind (allocate_session e k) g st t
  = g tt (set_sessions (allocated e k (active_sessions st)) st) t.
Proof.
  unfold allocate_session, allocated, bind, get, modify, ret.
  destruct (has_key (active_sessions st) k); [|reflexivity].
  destruct st; reflexivity.
Qed.

Lemma has_key_allocated e k l : has_key (allocated e k l) k = true.
Proof.
  unfold allocated. destruct (has_key l k) eqn:H; auto.
  rewrite has_key_app, H. simpl. rewrite String.eqb_refl. reflexivity.
Qed.

Lemma active_set_sessions l st : active_sessions (set_sessions l st) = l.
Proof. reflexivity. Qed.

Lemma py_any_in_str s : py_any_in error_keywords (JStr s) = inr (has_error s).
Proof.
  unfold has_error, error_keywords. simpl.
  repeat match goal with
         | |- context [contains ?k s] => destruct (contains k s)
         end; reflexivity.
Qed.

End MonadLemmas.

Lemma set_sessions_set_sessions l l' st :
  set_sessions l (set_sessions l' st) = set_sessions l st.
Proof. reflexivity. Qed.

Lemma bind_get_session {B} k (g : session -> M B) st t :
  bind (get_session k) g st t =
  match lookup_session (active_sessions st) k with
  | Some r => g r st t
  | None => (st, t, inl (KeyError k))
  end.
Proof.
  unfold get_session, bind, get, ret, raise.
  destruct (lookup_session (active_sessions st) k); reflexivity.
Qed.

Ltac has_key_side :=
  rewrite ?active_set_sessions, ?has_key_map_upd; apply has_key_allocated.

(** ** The HTTP-200 path, executed symbolically *)

(** One statement of a [bind] chain: flatten, feed a known value, or
    perform a store update on a present key. *)
Ltac sym_step :=
  first
  [ rewrite bind_assoc
  | rewrite bind_lift_inr; cbv beta
  | rewrite bind_ret_l; cbv beta
  | rewrite bind_upd_session by has_key_side; cbv beta
  | rewrite set_sessions_set_sessions
  | rewrite py_any_in_str
  | match goal with H : py_get _ _ _ = inr _ |- _ => rewrite H end ].

(** Read back the entry and the report once the chain is consumed. *)
Ltac read_back Hr0 :=
  rewrite bind_get_session; cbn [active_sessions set_sessions];
  rewrite !map_upd_map_upd, lookup_map_upd, Hr0;
  cbn [option_map ret fst snd active_sessions set_sessions];
  rewrite ?lookup_map_upd, ?Hr0; split; reflexivity.

Section Http200.

Variables (e : env) (sid code : string) (loc : option string) (txt : string) (st : state).

Let resp (b : json) := mk_response 200 (inr b) loc txt.

(** The entry found or created, before the classifier runs. *)
Let entry0 (r0 : session) := set_last_used (now e) (incr_execution_count r0).

Lemma wrapped_path props so stderr status rc :
  py_get props "stdout" (JStr "") = inr (JStr so) ->
  py_get props "stderr" (JStr "") = inr stderr ->
  py_get props "status" (JStr "") = inr status ->
  py_get props "returnCode" JNull = inr rc ->
  exists r0,
    let base := set_last_returnCode rc (set_last_stderr stderr
                  (set_last_stdout (JStr so) (entry0 r0))) in
    let r := if truthy stderr || has_error so || py_eq_str status "Failed"
                || (truthy rc && py_ne_zero rc)
             then (if has_error so && negb (truthy stderr)
                   then set_last_stdout (JStr "") (set_last_stderr (JStr so)
                          (set_last_status "Failed" base))
                   else set_last_status "Failed" base)
             else set_last_status "Success" base in
    stored (handle_200 e sid code (resp (JObj [("properties", props)]))) st sid = Some r /\
    result_of (handle_200 e sid code (resp (JObj [("properties", props)]))) st
      = inr (format_report sid code r).
Proof.
  intros H1 H2 H3 H4.
  destruct (has_key_lookup _ _ (has_key_allocated e sid (active_sessions st))) as [r0 Hr0].
  exists r0. cbv zeta. unfold stored, result_of, final_state, run, handle_200, resp.
  cbn [parse_body body]. rewrite bind_lift_inr; cbv beta.
  rewrite bind_allocate_session. repeat sym_step.
  cbn [py_in obj_has existsb fst String.eqb Ascii.eqb Bool.eqb orb andb].
  repeat sym_step. cbn beta iota. unfold classify_wrapped.
  cbn [py_index obj_lookup String.eqb Ascii.eqb Bool.eqb].
  repeat sym_step.
  destruct (truthy stderr || has_error so || py_eq_str status "Failed"
            || (truthy rc && py_ne_zero rc)); repeat sym_step;
    [destruct (has_error so && negb (truthy stderr)); repeat sym_step|].
  all: read_back Hr0.
Qed.

Lemma direct_path res so stderr rc success :
  py_in "properties" res = inr false ->
  py_get res "output" (JStr "") = inr (JStr so) ->
  py_get res "error" (JStr "") = inr stderr ->
  py_get res "return_code" (JNum 0) = inr rc ->
  py_get res "success" (JBool true) = inr success ->
  exists r0,
    let r := if truthy stderr || has_error so || negb (truthy success) || py_ne_zero rc
             then set_last_returnCode (if py_ne_zero rc then rc else JNum 1)
                    (set_last_status "Failed"
                      (if has_error so && negb (truthy stderr)
                       then set_last_stdout (JStr "") (set_last_stderr (JStr so) (entry0 r0))
                       else set_last_stderr stderr (set_last_stdout (JStr so) (entry0 r0))))
             else set_last_returnCode rc (set_last_status "Success"
                    (set_last_stderr stderr (set_last_stdout (JStr so) (entry0 r0)))) in
    stored (handle_200 e sid code (resp res)) st sid = Some r /\
    result_of (handle_200 e sid code (resp res)) st = inr (format_report sid code r).
Proof.
  intros H0 H1 H2 H3 H4.
  destruct (has_key_lookup _ _ (has_key_allocated e sid (active_sessions st))) as [r0 Hr0].
  exists r0. cbv zeta. unfold stored, result_of, final_state, run, handle_200, resp.
  cbn [parse_body body]. rewrite bind_lift_inr; cbv beta.
  rewrite bind_allocate_session. repeat sym_step.
  rewrite H0. repeat sym_step. cbn beta iota. unfold classify_direct.
  repeat sym_step.
  destruct (truthy stderr || has_error so || negb (truthy success) || py_ne_zero rc);
    repeat sym_step;
    [destruct (has_error so && negb (truthy stderr)); repeat sym_step|];
    read_back Hr0.
Qed.

End Http200.

Section WrappedShape.

Variables (status : field string) (so se : option string) (rc : field Z).

Let props := JObj (field_entry "status" JStr status ++ str_entry "stdout" so
                   ++ str_entry "stderr" se ++ field_entry "returnCode" JNum rc)%list.

Lemma wrapped_get_stdout : py_get props "stdout" (JStr "") = inr (JStr (norm so)).
Proof. unfold props. destruct status, so, se, rc; reflexivity. Qed.

Lemma wrapped_get_stderr : py_get props "stderr" (JStr "") = inr (JStr (norm se)).
Proof. unfold props. destruct status, so, se, rc; reflexivity. Qed.

Lemma wrapped_get_status :
  py_get props "status" (JStr "") = inr (field_value JStr (JStr "") status).
Proof. unfold props. destruct status, so, se, rc; reflexivity. Qed.

Lemma wrapped_get_returnCode :
  py_get props "returnCode" JNull = inr (field_value JNum JNull rc).
Proof. unfold props. destruct status, so, se, rc; reflexivity. Qed.

Lemma wrapped_body_props : wrapped_body status so se rc = JObj [("properties", props)].
Proof. reflexivity. Qed.

End WrappedShape.

Section DirectShape.

Variables (so se : option string) (rc : field Z) (success : field bool).

Let res := direct_body so se rc success.

Lemma direct_not_wrapped : py_in "properties" res = inr false.
Proof. unfold res. destruct so, se, rc, success; reflexivity. Qed.

Lemma direct_get_output : py_get res "output" (JStr "") = inr (JStr (norm so)).
Proof. unfold res. destruct so, se, rc, success; reflexivity. Qed.

Lemma direct_get_error : py_get res "error" (JStr "") = inr (JStr (norm se)).
Proof. unfold res. destruct so, se, rc, success; reflexivity. Qed.

Lemma direct_get_return_code :
  py_get res "return_code" (JNum 0) = inr (field_value JNum (JNum 0) rc).
Proof. unfold res. destruct so, se, rc, success; reflexivity. Qed.

Lemma direct_get_success :
  py_get res "success" (JBool true) = inr (field_value JBool (JBool true) success).
Proof. unfold res. destruct so, se, rc, success; reflexivity. Qed.

End DirectShape.

(** Instantiate the path lemmas at a concrete wire shape. *)
Ltac wrapped_at e sid code loc txt st status so se rc :=
  rewrite (wrapped_body_props status so se rc);
  destruct (wrapped_path e sid code loc txt st _ (norm so) _ _ _
              (wrapped_get_stdout status so se rc) (wrapped_get_stderr status so se rc)
              (wrapped_get_status status so se rc) (wrapped_get_returnCode status so se rc))
    as [?r0 [?Hs ?Hr]].

Ltac direct_at e sid code loc txt st so se rc success :=
  destruct (direct_path e sid code loc txt st _ (norm so) _ _ _
              (direct_not_wrapped so se rc success) (direct_get_output so se rc success)
              (direct_get_error so se rc success) (direct_get_return_code so se rc success)
              (direct_get_success so se rc success))
    as [?r0 [?Hs ?Hr]].

(** Evaluate a stored entry down to the atoms it depends on, and split on
    them. *)
Ltac eval_entry :=
  cbn [norm field_value truthy py_eq_str py_ne_zero negb orb andb
       String.eqb Ascii.eqb Bool.eqb Z.eqb Pos.eqb
       last_status last_stdout last_stderr last_returnCode
       set_last_stdout set_last_stderr set_last_status set_last_returnCode
       set_last_used incr_execution_count] in *.

Ltac split_entry :=
  eval_entry;
  repeat (match goal with
          | |- context [String.eqb ?a ?b] => destruct (String.eqb a b) eqn:?
          | |- context [Z.eqb ?a ?b] => destruct (Z.eqb a b) eqn:?
          | |- context [has_error ?s] =>
              match goal with
              | H : has_error s = _ |- _ => rewrite H
              | _ => destruct (has_error s) eqn:?
              end
          end; eval_entry).

(** Turn the boolean facts of a branch into propositions and close:
    the stored status is a literal, so one side of each equivalence is
    trivial and the other is settled disjunct by disjunct. *)
Ltac bool_facts :=
  repeat match goal with
  | H : String.eqb _ _ = true |- _ => apply String.eqb_eq in H; subst
  | H : String.eqb _ _ = false |- _ => apply String.eqb_neq in H
  | H : Z.eqb _ _ = true |- _ => apply Z.eqb_eq in H; subst
  | H : Z.eqb _ _ = false |- _ => apply Z.eqb_neq in H
  end.

Ltac solve_atom :=
  first [ assumption | reflexivity | congruence
        | eexists; split; [reflexivity | assumption] ].

Ltac solve_disj :=
  repeat match goal with
  | |- _ \/ _ => first [ left; solve_atom | right ]
  end; solve_atom.

Ltac refute_disj :=
  exfalso;
  repeat match goal with
  | H : _ \/ _ |- _ => destruct H
  | H : exists _, _ |- _ => destruct H
  | H : _ /\ _ |- _ => destruct H
  end; congruence.

Ltac close_branch :=
  bool_facts; eval_entry;
  split;
  [ split; intro;
    [ first [ discriminate | solve_disj ] | first [ reflexivity | refute_disj ] ]
  | first [ left; reflexivity | right; reflexivity ] ].


(** ** Failure Classifier (C1, C2, C3, C9, C10) *)

(** C1 does not hold of the code: a direct-shape response whose
    [return_code] is [null] is marked [Failed] although stderr is empty,
    stdout has no error text and [success] is [true]. The direct branch tests
    [return_code != 0] and [not success], which are true for [None]; the
    wrapped branch tests [return_code and return_code != 0], which treats
    [None] as zero. *)
Lemma classifier_failed_iff_counterexample :
  ~ (forall e sid code loc txt st so se rc success,
       exists r,
         stored (handle_200 e sid code
                   (mk_response 200 (inr (direct_body so se rc success)) loc txt)) st sid = Some r /\
         (last_status r = Some "Failed" <-> spec_failed_direct so se rc success)).
Proof.
  intros H.
  destruct (H sample_env "s" "c" None "" empty_state
              (Some "4") (Some "") Null (Val true)) as [r [Hr Hiff]].
  vm_compute in Hr. injection Hr as <-.
  destruct Hiff as [Hf _]. specialize (Hf eq_refl).
  unfold spec_failed_direct in Hf. vm_compute in Hf.
  destruct Hf as [Hf|[Hf|[Hf|[z [Hz _]]]]]; congruence.
Qed.

(** C1, as the code behaves: after an HTTP 200, the stored status is [Failed] exactly
    when stderr is non-empty, stdout contains one of the ten error
    substrings, or
    - (wrapped shape) [status] is ["Failed"] or [returnCode] is a non-zero
      integer ([null] and absent count as zero);
    - (direct shape) [success] is [false] or [null], or [return_code] is a
      non-zero integer or [null] (absent counts as zero);
    otherwise it is [Success]. In particular a non-empty stderr always
    gives [Failed]. *)
Theorem classifier_failed_iff e sid code loc txt st :
  (forall status so se rc,
     exists r,
       stored (handle_200 e sid code
                 (mk_response 200 (inr (wrapped_body status so se rc)) loc txt)) st sid = Some r /\
       (last_status r = Some "Failed" <->
          norm se <> "" \/ has_error (norm so) = true \/ status = Val "Failed"
          \/ (exists z, rc = Val z /\ z <> 0%Z)) /\
       (last_status r = Some "Failed" \/ last_status r = Some "Success"))
  /\
  (forall so se rc success,
     exists r,
       stored (handle_200 e sid code
                 (mk_response 200 (inr (direct_body so se rc success)) loc txt)) st sid = Some r /\
       (last_status r = Some "Failed" <->
          norm se <> "" \/ has_error (norm so) = true
          \/ success = Val false \/ success = Null
          \/ rc = Null \/ (exists z, rc = Val z /\ z <> 0%Z)) /\
       (last_status r = Some "Failed" \/ last_status r = Some "Success")).
Proof.
  split; intros.
  - wrapped_at e sid code loc txt st status so se rc.
    eexists; split; [exact Hs|].
    destruct status, so, se, rc; split_entry; close_branch.
  - direct_at e sid code loc txt st so se rc success.
    eexists; split; [exact Hs|].
    destruct success as [| |[|]], so, se, rc; split_entry; close_branch.
Qed.

(** C2: when stdout contains one of the ten error substrings and stderr is
    empty, the stdout text is stored as [last_stderr], [last_stdout] is
    cleared and the status is [Failed]; in both wire shapes. *)
Theorem classifier_moves_stdout_error e sid code loc txt st :
  (forall status so se rc,
     has_error (norm so) = true -> norm se = "" ->
     exists r,
       stored (handle_200 e sid code
                 (mk_response 200 (inr (wrapped_body status so se rc)) loc txt)) st sid = Some r /\
       last_stderr r = JStr (norm so) /\ last_stdout r = JStr "" /\
       last_status r = Some "Failed")
  /\
  (forall so se rc success,
     has_error (norm so) = true -> norm se = "" ->
     exists r,
       stored (handle_200 e sid code
                 (mk_response 200 (inr (direct_body so se rc success)) loc txt)) st sid = Some r /\
       last_stderr r = JStr (norm so) /\ last_stdout r = JStr "" /\
       last_status r = Some "Failed").
Proof.
  split; intros.
  - wrapped_at e sid code loc txt st status so se rc.
    eexists; split; [exact Hs|].
    rewrite H, H0. eval_entry. repeat split.
  - direct_at e sid code loc txt st so se rc success.
    eexists; split; [exact Hs|].
    rewrite H, H0. eval_entry. repeat split.
Qed.

Lemma classifier_moves_stdout_error_witness :
  (exists r,
     stored (handle_200 sample_env "s" "c"
               (mk_response 200 (inr (wrapped_body Absent (Some "NameError: x") None (Val 0%Z)))
                  None "")) empty_state "s" = Some r /\
     last_stderr r = JStr "NameError: x" /\ last_stdout r = JStr "" /\
     last_status r = Some "Failed")
  /\
  (exists r,
     stored (handle_200 sample_env "s" "c"
               (mk_response 200 (inr (direct_body (Some "Traceback (most recent call last)")
                                         (Some "") Absent Absent)) None "")) empty_state "s" = Some r /\
     last_stderr r = JStr "Traceback (most recent call last)" /\ last_stdout r = JStr "" /\
     last_status r = Some "Failed").
Proof.
  split.
  - apply (proj1 (classifier_moves_stdout_error sample_env "s" "c" None "" empty_state)
             Absent (Some "NameError: x") None (Val 0%Z)); reflexivity.
  - apply (proj2 (classifier_moves_stdout_error sample_env "s" "c" None "" empty_state)
             (Some "Traceback (most recent call last)") (Some "") Absent Absent); reflexivity.
Defined.

(** C3 (as stated) fails: a wrapped-shape response with empty stderr, clean
    stdout and no return code, but with [status] ["Failed"], is stored as
    [Failed], not [Success]. *)
Lemma classifier_success_counterexample :
  ~ (forall e sid code loc txt st status so se rc,
       norm se = "" -> has_error (norm so) = false -> (rc = Absent \/ rc = Val 0%Z) ->
       exists r,
         stored (handle_200 e sid code
                   (mk_response 200 (inr (wrapped_body status so se rc)) loc txt)) st sid = Some r /\
         last_status r = Some "Success" /\
         last_stdout r = JStr (norm so) /\ last_stderr r = JStr (norm se)).
Proof.
  intros H.
  destruct (H sample_env "s" "c" None "" empty_state (Val "Failed") (Some "4") None Absent
              eq_refl eq_refl (or_introl eq_refl)) as [r [Hr [Hst _]]].
  vm_compute in Hr. injection Hr as <-. discriminate Hst.
Qed.

(** C3 (amended): with empty stderr, no error substring in stdout and a
    return code that is [0] or absent, the status is [Success] and stdout and
    stderr are stored as normalized, provided that also
    - (wrapped shape) [status] is not ["Failed"];
    - (direct shape) [success] is [true] or absent. *)
Theorem classifier_success_unchanged e sid code loc txt st :
  (forall status so se rc,
     norm se = "" -> has_error (norm so) = false -> (rc = Absent \/ rc = Val 0%Z) ->
     status <> Val "Failed" ->
     exists r,
       stored (handle_200 e sid code
                 (mk_response 200 (inr (wrapped_body status so se rc)) loc txt)) st sid = Some r /\
       last_status r = Some "Success" /\
       last_stdout r = JStr (norm so) /\ last_stderr r = JStr (norm se))
  /\
  (forall so se rc success,
     norm se = "" -> has_error (norm so) = false -> (rc = Absent \/ rc = Val 0%Z) ->
     (success = Absent \/ success = Val true) ->
     exists r,
       stored (handle_200 e sid code
                 (mk_response 200 (inr (direct_body so se rc success)) loc txt)) st sid = Some r /\
       last_status r = Some "Success" /\
       last_stdout r = JStr (norm so) /\ last_stderr r = JStr (norm se)).
Proof.
  split; intros.
  - wrapped_at e sid code loc txt st status so se rc.
    eexists; split; [exact Hs|].
    assert (Hst : py_eq_str (field_value JStr (JStr "") status) "Failed" = false).
    { destruct status as [| |s]; try reflexivity. cbn.
      apply String.eqb_neq. intros ->. contradiction. }
    rewrite Hst, H, H0. destruct H1 as [-> | ->]; eval_entry; repeat split.
  - direct_at e sid code loc txt st so se rc success.
    eexists; split; [exact Hs|].
    rewrite H, H0. destruct H1 as [-> | ->], H2 as [-> | ->]; eval_entry; repeat split.
Qed.

Lemma classifier_success_unchanged_witness :
  (exists r,
     stored (handle_200 sample_env "s" "c"
               (mk_response 200 (inr (wrapped_body (Val "Success") (Some "4") None (Val 0%Z)))
                  None "")) empty_state "s" = Some r /\
     last_status r = Some "Success" /\ last_stdout r = JStr "4" /\ last_stderr r = JStr "")
  /\
  (exists r,
     stored (handle_200 sample_env "s" "c"
               (mk_response 200 (inr (direct_body (Some "4") None Absent (Val true)))
                  None "")) empty_state "s" = Some r /\
     last_status r = Some "Success" /\ last_stdout r = JStr "4" /\ last_stderr r = JStr "").
Proof.
  split.
  - apply (proj1 (classifier_success_unchanged sample_env "s" "c" None "" empty_state)
             (Val "Success") (Some "4") None (Val 0%Z));
      [reflexivity | reflexivity | right; reflexivity | discriminate].
  - apply (proj2 (classifier_success_unchanged sample_env "s" "c" None "" empty_state)
             (Some "4") None Absent (Val true));
      [reflexivity | reflexivity | left; reflexivity | right; reflexivity].
Defined.

(** C9: in the direct shape, a response stored as [Failed] keeps a non-zero
    [return_code], and has [1] stored when [return_code] is [0] or absent. *)
Theorem direct_failed_return_code e sid code loc txt st so se rc success :
  exists r,
    stored (handle_200 e sid code
              (mk_response 200 (inr (direct_body so se rc success)) loc txt)) st sid = Some r /\
    (last_status r = Some "Failed" ->
       ((rc = Absent \/ rc = Val 0%Z) -> last_returnCode r = Some (JNum 1)) /\
       (forall z, rc = Val z -> z <> 0%Z -> last_returnCode r = Some (JNum z))).
Proof.
  direct_at e sid code loc txt st so se rc success.
  eexists; split; [exact Hs|].
  destruct (truthy (JStr (norm se)) || has_error (norm so)
            || negb (truthy (field_value JBool (JBool true) success))
            || py_ne_zero (field_value JNum (JNum 0) rc));
    eval_entry; intros Hf; [|discriminate Hf].
  split.
  - intros [-> | ->]; reflexivity.
  - intros z -> Hz. cbn. apply Z.eqb_neq in Hz. rewrite Hz. reflexivity.
Qed.

Lemma direct_failed_return_code_witness :
  exists r,
    stored (handle_200 sample_env "s" "c"
              (mk_response 200 (inr (direct_body (Some "") (Some "boom") Absent Absent))
                 None "")) empty_state "s" = Some r /\
    last_status r = Some "Failed" /\ last_returnCode r = Some (JNum 1).
Proof.
  destruct (direct_failed_return_code sample_env "s" "c" None "" empty_state
              (Some "") (Some "boom") Absent Absent) as [r [Hs Hf]].
  assert (Hst : last_status r = Some "Failed")
    by (vm_compute in Hs; injection Hs as <-; reflexivity).
  exists r. split; [exact Hs|]. split; [exact Hst|].
  apply (proj1 (Hf Hst)). left; reflexivity.
Defined.

(** C10: a wrapped-shape response without [returnCode] that is classified
    [Success] is stored with status [Success] and return code [null], and the
    report returned is the ["Code Execution Failed"] one, because the report
    treats the stored [null] as a non-zero return code. *)
Theorem wrapped_missing_returnCode_report e sid code loc txt st status so se :
  norm se = "" -> has_error (norm so) = false -> status <> Val "Failed" ->
  exists r,
    stored (handle_200 e sid code
              (mk_response 200 (inr (wrapped_body status so se Absent)) loc txt)) st sid = Some r /\
    last_status r = Some "Success" /\ last_returnCode r = Some JNull /\
    result_of (handle_200 e sid code
                 (mk_response 200 (inr (wrapped_body status so se Absent)) loc txt)) st
      = inr (failed_report sid code JNull (JStr (norm so))).
Proof.
  intros Hse Hso Hstatus.
  wrapped_at e sid code loc txt st status so se (@Absent Z).
  assert (Hst : py_eq_str (field_value JStr (JStr "") status) "Failed" = false).
  { destruct status as [| |s]; try reflexivity. cbn.
    apply String.eqb_neq. intros ->. contradiction. }
  eexists; split; [exact Hs|].
  rewrite Hr, Hst, Hse, Hso. unfold format_report. eval_entry. repeat split.
Qed.

Lemma wrapped_missing_returnCode_report_witness :
  exists r,
    stored (handle_200 sample_env "s" "c"
              (mk_response 200 (inr (wrapped_body (Val "Success") (Some "4") None Absent))
                 None "")) empty_state "s" = Some r /\
    last_status r = Some "Success" /\ last_returnCode r = Some JNull /\
    result_of (handle_200 sample_env "s" "c"
                 (mk_response 200 (inr (wrapped_body (Val "Success") (Some "4") None Absent))
                    None "")) empty_state
      = inr (failed_report "s" "c" JNull (JStr "4")).
Proof.
  apply (wrapped_missing_returnCode_report sample_env "s" "c" None "" empty_state
           (Val "Success") (Some "4") None); [reflexivity | reflexivity | discriminate].
Defined.

(** ** Frame lemmas for whole tool calls *)

Section Preserves.

Variable P : state -> list event -> Prop.

Lemma preserves_ret {A} (a : A) : preserves P (ret a).
Proof. intros s t H. exact H. Qed.

Lemma preserves_lift {A} (r : exn + A) : preserves P (lift r).
Proof. intros s t H. exact H. Qed.

Lemma preserves_raise {A} (ex : exn) : preserves P (@raise A ex).
Proof. intros s t H. exact H. Qed.

Lemma preserves_get : preserves P get.
Proof. intros s t H. exact H. Qed.

Lemma preserves_modify f :
  (forall s t, P s t -> P (f s) t) -> preserves P (modify f).
Proof. intros Hf s t H. exact (Hf s t H). Qed.

Lemma preserves_emit ev :
  (forall s t, P s t -> P s (t ++ [ev])%list) -> preserves P (emit ev).
Proof. intros Hf s t H. exact (Hf s t H). Qed.

Lemma preserves_bind {A B} (m : M A) (f : A -> M B) :
  preserves P m -> (forall a, preserves P (f a)) -> preserves P (bind m f).
Proof.
  intros Hm Hf s t H. specialize (Hm s t H). unfold bind.
  destruct (m s t) as [[s' t'] [ex|a]]; cbn in *; [exact Hm | exact (Hf a s' t' Hm)].
Qed.

Lemma preserves_try_catch {A} (m : M A) (h : exn -> M A) :
  preserves P m -> (forall ex, preserves P (h ex)) -> preserves P (try_catch m h).
Proof.
  intros Hm Hh s t H. specialize (Hm s t H). unfold try_catch.
  destruct (m s t) as [[s' t'] [ex|a]]; cbn in *; [exact (Hh ex s' t' Hm) | exact Hm].
Qed.

End Preserves.

Ltac pres_step :=
  first
    [ apply preserves_ret | apply preserves_lift | apply preserves_raise
    | apply preserves_get
    | apply preserves_bind; [|intro]
    | apply preserves_try_catch; [|intro]
    | match goal with
      | |- preserves _ (match ?x with _ => _ end) => destruct x
      | |- preserves _ (if ?b then _ else _) => destruct b
      end ].

Lemma has_key_keys l k : has_key l k = existsb (fun x => String.eqb x k) (keys l).
Proof. induction l as [|[k0 r0] l IH]; simpl; auto. rewrite IH. reflexivity. Qed.

Lemma keys_allocated_present e k l : has_key l k = true -> allocated e k l = l.
Proof. unfold allocated. intros ->. reflexivity. Qed.

Lemma keys_allocated_absent e k l :
  has_key l k = false -> keys (allocated e k l) = (keys l ++ [k])%list.
Proof. unfold allocated, keys. intros ->. rewrite map_app. reflexivity. Qed.

(** Everything [run_execution] does for a fixed session id [S]: it only
    allocates [S] and updates entries, emits events of four kinds, and leaves
    the tracker alone. *)
Section RunExecution.

Variables (S : string) (KP : list string -> Prop) (EP : event -> Prop)
          (TP : list tool_record -> list string -> Prop).

Hypothesis HK : forall e l, KP (keys l) -> KP (keys (allocated e S l)).
Hypothesis HE_token : forall a, EP (EvGetToken a).
Hypothesis HE_post : forall p tok pl, EP (EvPost (p ++ "/execute?identifier=" ++ S) tok pl).
Hypothesis HE_sleep : forall n, EP (EvSleep n).
Hypothesis HE_get : forall u tok, EP (EvGet u tok).

Let Inv (s : state) (t : list event) : Prop :=
  KP (keys (active_sessions s)) /\ Forall EP t /\
  TP (current_tools_used s) (current_request_sessions s).

Lemma inv_emit ev : EP ev -> preserves Inv (emit ev).
Proof.
  intros Hev. apply preserves_emit. intros s t (H1 & H2 & H3).
  repeat split; auto. apply Forall_app. auto.
Qed.

Lemma inv_upd_session k f : preserves Inv (upd_session k f).
Proof.
  intros s t (H1 & H2 & H3).
  unfold upd_session, bind, get, modify, raise. cbn [fst snd].
  destruct (has_key (active_sessions s) k);
    unfold Inv; cbn [fst snd active_sessions set_sessions current_tools_used current_request_sessions];
    [rewrite keys_map_upd|]; repeat split; auto.
Qed.

Lemma inv_get_session k : preserves Inv (get_session k).
Proof. unfold get_session. repeat pres_step. Qed.

Lemma inv_allocate_session e : preserves Inv (allocate_session e S).
Proof.
  intros s t (H1 & H2 & H3). specialize (HK e _ H1).
  unfold allocate_session, allocated, bind, get, modify, ret in *. cbn.
  destruct (has_key (active_sessions s) S); repeat split; auto.
Qed.

Lemma inv_classify_wrapped result : preserves Inv (classify_wrapped S result).
Proof.
  unfold classify_wrapped.
  repeat first [ apply inv_upd_session | pres_step ].
Qed.

Lemma inv_classify_direct result : preserves Inv (classify_direct S result).
Proof.
  unfold classify_direct.
  repeat first [ apply inv_upd_session | pres_step ].
Qed.

Lemma inv_handle_200 e code resp : preserves Inv (handle_200 e S code resp).
Proof.
  unfold handle_200.
  repeat first [ apply inv_upd_session | apply inv_allocate_session | apply inv_get_session
               | apply inv_classify_wrapped | apply inv_classify_direct | pres_step ].
Qed.

Lemma inv_poll_attempt e token url i : preserves Inv (poll_attempt e token url i).
Proof.
  unfold poll_attempt.
  repeat first [ apply inv_emit; first [apply HE_sleep | apply HE_get] | pres_step ].
Qed.

Lemma inv_poll_loop e token url fuel : forall i, preserves Inv (poll_loop e token url i fuel).
Proof.
  induction fuel as [|fuel IH]; intros i; cbn [poll_loop]; [apply preserves_ret|].
  repeat first [ apply inv_poll_attempt | apply IH | pres_step ].
Qed.

Lemma inv_run_execution e code : preserves Inv (run_execution e code S).
Proof.
  unfold run_execution, handle_202.
  repeat first [ apply inv_emit; first [apply HE_token | apply HE_post]
               | apply inv_handle_200 | apply inv_poll_loop | pres_step ].
Qed.

Lemma inv_run_execution_caught e code :
  preserves Inv (try_catch (run_execution e code S) execution_error_report).
Proof.
  apply preserves_try_catch; [apply inv_run_execution|].
  intros ex. unfold execution_error_report. repeat pres_step.
Qed.

End RunExecution.

(** ** The session id a call works with, and the tracker *)

Lemma execute_run e code s t :
  execute_in_dynamic_session e code s t =
  if endpoint_configured e
  then try_catch (run_execution e code (pick_or_create_session s e)) execution_error_report
         (track_state (pick_or_create_session s e) s) t
  else (track_state (pick_or_create_session s e) s, t, inr config_error_report).
Proof.
  unfold execute_in_dynamic_session, start_execution, track_session, bind, try_catch,
    get, modify, ret.
  destruct (endpoint_configured e); reflexivity.
Qed.

Lemma active_track_state x s : active_sessions (track_state x s) = active_sessions s.
Proof. unfold track_state. destruct existsb; reflexivity. Qed.

Lemma tools_track_state x s :
  current_tools_used (track_state x s)
  = (current_tools_used s
     ++ if existsb (String.eqb x) (current_request_sessions s) then []
        else [exec_tool_record x])%list.
Proof. unfold track_state. destruct existsb; cbn; rewrite ?app_nil_r; reflexivity. Qed.

Lemma last_key_keys l :
  last_key l = match rev (keys l) with k :: _ => Some k | [] => None end.
Proof.
  unfold last_key, keys. rewrite <- map_rev.
  destruct (rev l) as [|[k r] l']; reflexivity.
Qed.

Lemma last_key_has_key l S : last_key l = Some S -> has_key l S = true.
Proof.
  rewrite last_key_keys, has_key_keys. intros H.
  apply existsb_exists. exists S. split; [|apply String.eqb_refl].
  apply in_rev. destruct (rev (keys l)) as [|k l']; [discriminate|].
  injection H as ->. left. reflexivity.
Qed.

Lemma pick_last_key s e S :
  last_key (active_sessions s) = Some S -> pick_or_create_session s e = S.
Proof. unfold pick_or_create_session. intros ->. reflexivity. Qed.

Lemma pick_empty s e :
  active_sessions s = [] -> pick_or_create_session s e = substring 0 12 (uuid_hex e).
Proof. unfold pick_or_create_session. intros ->. reflexivity. Qed.

Lemma substring_length n s :
  (n <= String.length s)%nat -> String.length (substring 0 n s) = n.
Proof.
  revert s. induction n as [|n IH]; intros s H; [destruct s; reflexivity|].
  destruct s as [|c s]; cbn in *; [lia|]. f_equal. apply IH. lia.
Qed.

Lemma hex_string_substring n s :
  hex_string s = true -> hex_string (substring 0 n s) = true.
Proof.
  revert s. induction n as [|n IH]; intros s H; [destruct s; reflexivity|].
  destruct s as [|c s]; [reflexivity|].
  unfold hex_string in *. cbn in *. apply andb_prop in H as [H1 H2].
  rewrite H1. cbn. apply IH. exact H2.
Qed.

Lemma records_track_state S s :
  exists X, current_tools_used (track_state S s) = (current_tools_used s ++ X)%list
            /\ Forall (records_session S) X.
Proof.
  rewrite tools_track_state. eexists. split; [reflexivity|].
  destruct existsb; [constructor|].
  constructor; [right; reflexivity|constructor].
Qed.

Lemma forall_records_app S X Y :
  Forall (records_session S) X -> Forall (records_session S) Y ->
  Forall (records_session S) (X ++ Y)%list.
Proof. intros. apply Forall_app. auto. Qed.

(** The invariant of C4 for a store whose keys are [K]. *)
Section Reuse.

Variables (S : string) (K : list string) (T0 : list tool_record).
Hypothesis HS : match rev K with k :: _ => k = S | [] => False end.

Let Inv4 (s : state) (t : list event) : Prop :=
  keys (active_sessions s) = K /\ Forall (posts_to S) t /\
  exists X, current_tools_used s = (T0 ++ X)%list /\ Forall (records_session S) X.

Lemma inv4_last_key s t : Inv4 s t -> last_key (active_sessions s) = Some S.
Proof.
  intros [H _]. rewrite last_key_keys, H.
  destruct (rev K); [contradiction|]. subst. reflexivity.
Qed.

Lemma inv4_run_tool c : preserves Inv4 (run_tool c).
Proof.
  destruct c as [|e code]; cbn [run_tool].
  - unfold search_tools_available.
    apply preserves_bind; [|intros; apply preserves_ret].
    apply preserves_modify. intros s t (H1 & H2 & X & H3 & H4).
    cbn. repeat split; auto.
    exists (X ++ [mk_tool "search_tools_available" "🔧" "Tool discovery" None])%list.
    rewrite H3, app_assoc. split; [reflexivity|].
    apply forall_records_app; auto. constructor; [left; reflexivity|constructor].
  - intros s t HI. pose proof (inv4_last_key s t HI) as Hl.
    rewrite execute_run, (pick_last_key s e S Hl).
    destruct HI as (H1 & H2 & X & H3 & H4).
    destruct (records_track_state S s) as (Y & H5 & H6).
    assert (HI' : Inv4 (track_state S s) t).
    { repeat split; auto.
      - rewrite active_track_state. exact H1.
      - exists (X ++ Y)%list. rewrite H5, H3, app_assoc. split; [reflexivity|].
        apply forall_records_app; auto. }
    destruct (endpoint_configured e); [|exact HI'].
    refine (inv_run_execution_caught S (fun l => l = K) (posts_to S)
              (fun tools _ => exists X, tools = (T0 ++ X)%list /\ Forall (records_session S) X)
              _ _ _ _ _ e code _ _ HI').
    + intros e' l Hl'. rewrite keys_allocated_present; [exact Hl'|].
      rewrite has_key_keys, Hl'. apply existsb_exists. exists S.
      split; [|apply String.eqb_refl]. apply in_rev.
      destruct (rev K); [contradiction|]. subst. left. reflexivity.
    + intros; exact I.
    + intros p tok pl. exists p. reflexivity.
    + intros; exact I.
    + intros; exact I.
Qed.

Lemma inv4_run_calls cs : preserves Inv4 (run_calls cs).
Proof.
  induction cs as [|c cs IH]; cbn [run_calls]; [apply preserves_ret|].
  apply preserves_bind; [apply inv4_run_tool|intros].
  apply preserves_bind; [exact IH|intros; apply preserves_ret].
Qed.

End Reuse.

(** The invariant of C5: the session ids recorded in the request are
    distinct, and they are exactly the seen ones. *)
Definition dedup_inv (tools : list tool_record) (seen : list string) : Prop :=
  NoDup (session_ids tools) /\ (forall x, In x (session_ids tools) <-> In x seen).

Lemma session_ids_app l l' :
  session_ids (l ++ l') = (session_ids l ++ session_ids l')%list.
Proof.
  induction l as [|r l IH]; cbn; auto.
  destruct (tool_session_id r); cbn; rewrite IH; reflexivity.
Qed.

Lemma dedup_track_state x s :
  dedup_inv (current_tools_used s) (current_request_sessions s) ->
  dedup_inv (current_tools_used (track_state x s)) (current_request_sessions (track_state x s)).
Proof.
  unfold track_state. destruct (existsb (String.eqb x) (current_request_sessions s)) eqn:E;
    [auto|].
  intros [Hnd Hiff]. unfold dedup_inv.
  cbn [current_tools_used current_request_sessions]. rewrite session_ids_app. cbn.
  assert (Hx : ~ In x (session_ids (current_tools_used s))).
  { intros Hin. apply Hiff in Hin.
    assert (existsb (String.eqb x) (current_request_sessions s) = true) as Ht.
    { apply existsb_exists. exists x. split; [exact Hin|apply String.eqb_refl]. }
    congruence. }
  split.
  - apply (Permutation_NoDup (Permutation_cons_append _ x)). constructor; assumption.
  - intros y. rewrite in_app_iff. cbn. rewrite Hiff. tauto.
Qed.

Lemma dedup_run_tool c :
  preserves (fun s _ => dedup_inv (current_tools_used s) (current_request_sessions s)) (run_tool c).
Proof.
  destruct c as [|e code]; cbn [run_tool].
  - unfold search_tools_available.
    apply preserves_bind; [|intros; apply preserves_ret].
    apply preserves_modify. intros s t [Hnd Hiff]. unfold dedup_inv.
    cbn [current_tools_used current_request_sessions].
    rewrite session_ids_app. cbn. rewrite app_nil_r. split; assumption.
  - intros s t HI. rewrite execute_run.
    pose proof (dedup_track_state (pick_or_create_session s e) s HI) as HI'.
    destruct (endpoint_configured e); [|exact HI'].
    refine (proj2 (proj2 (inv_run_execution_caught (pick_or_create_session s e)
              (fun _ => True) (fun _ => True) dedup_inv
              _ _ _ _ _ e code _ t (conj I (conj (proj2 (Forall_forall _ _) (fun _ _ => I)) HI'))))).
    all: intros; exact I.
Qed.

Lemma dedup_run_calls cs :
  preserves (fun s _ => dedup_inv (current_tools_used s) (current_request_sessions s)) (run_calls cs).
Proof.
  induction cs as [|c cs IH]; cbn [run_calls]; [apply preserves_ret|].
  apply preserves_bind; [apply dedup_run_tool|intros].
  apply preserves_bind; [exact IH|intros; apply preserves_ret].
Qed.

Lemma chat_request_run cs s t :
  chat_request cs s t
  = bind (run_calls cs) (fun _ => bind get (fun st => ret (current_tools_used st)))
      (mk_state (active_sessions s) [] []) t.
Proof. reflexivity. Qed.

(** C4: the session id a call uses (the one its tool record carries and its
    POST goes to) is [uuid4().hex[:12]] when the store is empty: 12 hex
    characters, and the store then holds no key or just that one; and from a
    store whose last (most recently created) key is [S], every call of any
    sequence of tool calls uses [S], creates no other session and keeps [S]
    the last key. *)
Theorem session_id_reuse :
  (forall e code st,
     active_sessions st = [] ->
     let S := substring 0 12 (uuid_hex e) in
     let st' := final_state (execute_in_dynamic_session e code) st in
     Forall (posts_to S) (trace_of (execute_in_dynamic_session e code) st) /\
     (exists X, current_tools_used st' = (current_tools_used st ++ X)%list
                /\ Forall (records_session S) X) /\
     (keys (active_sessions st') = [] \/ keys (active_sessions st') = [S]))
  /\
  (forall e, hex_string (uuid_hex e) = true -> String.length (uuid_hex e) = 32%nat ->
     String.length (substring 0 12 (uuid_hex e)) = 12%nat /\
     hex_string (substring 0 12 (uuid_hex e)) = true)
  /\
  (forall cs st S,
     last_key (active_sessions st) = Some S ->
     let st' := final_state (run_calls cs) st in
     keys (active_sessions st') = keys (active_sessions st) /\
     last_key (active_sessions st') = Some S /\
     Forall (posts_to S) (trace_of (run_calls cs) st) /\
     (exists X, current_tools_used st' = (current_tools_used st ++ X)%list
                /\ Forall (records_session S) X)).
Proof.
  split; [|split].
  - intros e code st Hst S st'. subst st'.
    unfold final_state, trace_of, run. rewrite execute_run, (pick_empty st e Hst).
    fold S.
    destruct (records_track_state S st) as (X & HX1 & HX2).
    assert (HI : keys (active_sessions (track_state S st)) = []
                 /\ Forall (posts_to S) []
                 /\ exists X, current_tools_used (track_state S st)
                              = (current_tools_used st ++ X)%list
                              /\ Forall (records_session S) X).
    { rewrite active_track_state, Hst. repeat split; eauto. }
    destruct (endpoint_configured e).
    + pose proof (inv_run_execution_caught S (fun l => l = [] \/ l = [S]) (posts_to S)
              (fun tools _ => exists X, tools = (current_tools_used st ++ X)%list
                                        /\ Forall (records_session S) X)) as Hp.
      destruct HI as (H1 & H2 & H3).
      refine (match Hp _ _ _ _ _ e code _ [] (conj (or_introl H1) (conj H2 H3)) with
              | conj K1 (conj K2 K3) => conj K2 (conj K3 K1) end).
      * intros e' l [Hl|Hl].
        -- destruct (has_key l S) eqn:Hk.
           ++ rewrite keys_allocated_present by exact Hk. left. exact Hl.
           ++ rewrite keys_allocated_absent by exact Hk. rewrite Hl. right. reflexivity.
        -- rewrite keys_allocated_present; [right; exact Hl|].
           rewrite has_key_keys, Hl. cbn. rewrite String.eqb_refl. reflexivity.
      * intros; exact I.
      * intros p tok pl. exists p. reflexivity.
      * intros; exact I.
      * intros; exact I.
    + cbn [fst snd]. destruct HI as (H1 & H2 & H3). split; [exact H2|]. split; [exact H3|].
      left. exact H1.
  - intros e Hhex Hlen. split.
    + apply substring_length. rewrite Hlen. lia.
    + apply hex_string_substring. exact Hhex.
  - intros cs st S Hl st'. subst st'.
    set (K := keys (active_sessions st)).
    assert (HS : match rev K with k :: _ => k = S | [] => False end).
    { unfold K. rewrite last_key_keys in Hl.
      destruct (rev (keys (active_sessions st))); [discriminate|]. injection Hl. auto. }
    assert (HI : keys (active_sessions st) = K /\ Forall (posts_to S) []
                 /\ exists X, current_tools_used st = (current_tools_used st ++ X)%list
                              /\ Forall (records_session S) X).
    { repeat split; auto. exists []. rewrite app_nil_r. split; auto. }
    pose proof (inv4_run_calls S K (current_tools_used st) HS cs st [] HI) as HP.
    unfold final_state, trace_of, run.
    pose proof (inv4_last_key S K (current_tools_used st) HS _ _ HP) as HL.
    destruct HP as (H1 & H2 & H3). repeat split; auto.
Qed.

Lemma session_id_reuse_witness :
  (Forall (posts_to "0123456789ab")
     (trace_of (execute_in_dynamic_session sample_env "print(1)") empty_state) /\
   (exists X, current_tools_used (final_state (execute_in_dynamic_session sample_env "print(1)")
                                   empty_state) = (current_tools_used empty_state ++ X)%list
              /\ Forall (records_session "0123456789ab") X) /\
   (keys (active_sessions (final_state (execute_in_dynamic_session sample_env "print(1)")
                             empty_state)) = []
    \/ keys (active_sessions (final_state (execute_in_dynamic_session sample_env "print(1)")
                                empty_state)) = ["0123456789ab"]))
  /\
  (String.length "0123456789ab" = 12%nat /\ hex_string "0123456789ab" = true)
  /\
  (let st := mk_state [("0123456789ab", mk_session "2024-01-01T00:00:00" 1 (JStr "1")
                                          (JStr "") None (Some "Success") (Some (JNum 0)))] [] [] in
   keys (active_sessions (final_state (run_calls [CallExec sample_env "1"; CallSearch;
                                                   CallExec sample_env "2"]) st))
   = ["0123456789ab"]).
Proof.
  split; [|split].
  - exact (proj1 session_id_reuse sample_env "print(1)" empty_state eq_refl).
  - exact (proj1 (proj2 session_id_reuse) sample_env eq_refl eq_refl).
  - cbv zeta.
    match goal with
    | |- context [final_state _ ?st] =>
        exact (proj1 (proj2 (proj2 session_id_reuse) [CallExec sample_env "1"; CallSearch;
                                                       CallExec sample_env "2"] st
                                "0123456789ab" eq_refl))
    end.
Defined.

(** C5: within a chat request the tools-used list holds at most one record
    per session id, however many calls there are; the request starts by
    emptying the tools-used list and the seen set. *)
Theorem request_records_unique cs st :
  current_tools_used (final_state reset_request_tracking st) = [] /\
  current_request_sessions (final_state reset_request_tracking st) = [] /\
  (forall x,
     (count_occ string_dec
        (session_ids (current_tools_used (final_state (chat_request cs) st))) x <= 1)%nat) /\
  (forall x,
     In x (session_ids (current_tools_used (final_state (chat_request cs) st)))
     <-> In x (current_request_sessions (final_state (chat_request cs) st))).
Proof.
  split; [reflexivity|]. split; [reflexivity|].
  assert (H0 : dedup_inv [] []) by (split; [constructor | tauto]).
  assert (HP : preserves (fun s _ => dedup_inv (current_tools_used s) (current_request_sessions s))
                 (bind (run_calls cs) (fun _ => bind get (fun st => ret (current_tools_used st))))).
  { apply preserves_bind; [apply dedup_run_calls|intros].
    apply preserves_bind; [apply preserves_get|intros; apply preserves_ret]. }
  specialize (HP (mk_state (active_sessions st) [] []) [] H0).
  unfold final_state, run. rewrite chat_request_run.
  destruct HP as [Hnd Hiff]. split; [|exact Hiff].
  apply NoDup_count_occ. exact Hnd.
Qed.

(** C6 (as stated) fails: with the endpoint unset, the call still resolves a
    session id and appends its tool record to the tracker (and adds the id
    to the seen set) before it returns the configuration error. *)
Lemma config_error_no_network_counterexample :
  ~ (forall e code st,
       endpoint_configured e = false ->
       current_tools_used (final_state (execute_in_dynamic_session e code) st)
         = current_tools_used st /\
       current_request_sessions (final_state (execute_in_dynamic_session e code) st)
         = current_request_sessions st /\
       active_sessions (final_state (execute_in_dynamic_session e code) st)
         = active_sessions st).
Proof.
  intros H. destruct (H unconfigured_env "print(1)" empty_state eq_refl) as [Ht _].
  vm_compute in Ht. discriminate Ht.
Qed.

(** C6 (amended): with the endpoint unset, the call returns the report
    containing "Configuration Error", makes no network call and leaves the
    session store unchanged; the only change is the tracking of the resolved
    session id that precedes the check. *)
Theorem config_error_no_network e code st :
  endpoint_configured e = false ->
  result_of (execute_in_dynamic_session e code) st = inr config_error_report /\
  contains "Configuration Error" config_error_report = true /\
  trace_of (execute_in_dynamic_session e code) st = [] /\
  active_sessions (final_state (execute_in_dynamic_session e code) st) = active_sessions st /\
  final_state (execute_in_dynamic_session e code) st
    = track_state (pick_or_create_session st e) st.
Proof.
  intros He. unfold result_of, trace_of, final_state, run.
  rewrite execute_run, He. cbn [fst snd].
  split; [reflexivity|]. split; [vm_compute; reflexivity|].
  split; [reflexivity|]. split; [apply active_track_state | reflexivity].
Qed.

Lemma config_error_no_network_witness :
  result_of (execute_in_dynamic_session unconfigured_env "print(1)") empty_state
    = inr config_error_report /\
  contains "Configuration Error" config_error_report = true /\
  trace_of (execute_in_dynamic_session unconfigured_env "print(1)") empty_state = [] /\
  active_sessions (final_state (execute_in_dynamic_session unconfigured_env "print(1)")
                     empty_state) = [] /\
  final_state (execute_in_dynamic_session unconfigured_env "print(1)") empty_state
    = track_state "0123456789ab" empty_state.
Proof.
  exact (config_error_no_network unconfigured_env "print(1)" empty_state eq_refl).
Defined.

(** ** Asynchronous execution (HTTP 202) *)

Lemma poll_attempt_run e token url i s t :
  poll_attempt e token url i s t
  = (s, ((t ++ [EvSleep 1]) ++ [EvGet url token])%list, attempt_result e token url i).
Proof.
  unfold attempt_result, result_of, run, poll_attempt, bind, emit, raise, lift, ret.
  cbn [fst snd].
  destruct (polls e i) as [pr|ex]; [|reflexivity].
  destruct (Z.eqb (status_code pr) 200); [|reflexivity].
  destruct (parse_body pr) as [ex|result]; [reflexivity|].
  destruct (py_get result "properties" (JObj [])) as [ex|props]; [reflexivity|].
  destruct (py_get props "status" JNull) as [ex|status]; [reflexivity|].
  destruct (py_eq_str status "Completed"); [|reflexivity].
  destruct (py_get props "result" (JStr (py_str result))) as [ex|r]; reflexivity.
Qed.

Lemma poll_events_S url token n :
  poll_events url token (S n) = ([EvSleep 1; EvGet url token] ++ poll_events url token n)%list.
Proof. reflexivity. Qed.

Lemma poll_loop_state e token url n :
  forall i s t, fst (fst (poll_loop e token url i n s t)) = s.
Proof.
  induction n as [|n IH]; intros i s t; [reflexivity|].
  cbn [poll_loop]. unfold bind at 1. rewrite poll_attempt_run.
  destruct (attempt_result e token url i) as [ex|[r|]]; cbn; [reflexivity|reflexivity|apply IH].
Qed.

Lemma poll_loop_pending e token url n :
  forall i s t,
    (forall j, (j < n)%nat -> attempt_result e token url (i + j) = inr None) ->
    poll_loop e token url i n s t = (s, (t ++ poll_events url token n)%list, inr poll_timeout_report).
Proof.
  induction n as [|n IH]; intros i s t H.
  - cbn. rewrite app_nil_r. reflexivity.
  - cbn [poll_loop]. unfold bind at 1. rewrite poll_attempt_run.
    specialize (H 0%nat ltac:(lia)) as H0. rewrite Nat.add_0_r in H0. rewrite H0.
    cbn [fst snd]. rewrite IH.
    + rewrite poll_events_S, <- !app_assoc. reflexivity.
    + intros j Hj. rewrite <- (H (S j)) by lia. f_equal. lia.
Qed.

Lemma poll_loop_stop e token url k :
  forall n i s t,
    (k < n)%nat ->
    (forall j, (j < k)%nat -> attempt_result e token url (i + j) = inr None) ->
    attempt_result e token url (i + k) <> inr None ->
    snd (poll_loop e token url i n s t)
    = match attempt_result e token url (i + k) with
      | inl ex => inl ex
      | inr (Some r) => inr r
      | inr None => inr poll_timeout_report
      end.
Proof.
  induction k as [|k IH]; intros n i s t Hk Hpre Hstop; (destruct n as [|n]; [lia|]);
    cbn [poll_loop]; unfold bind at 1; rewrite poll_attempt_run.
  - rewrite Nat.add_0_r in *.
    destruct (attempt_result e token url i) as [ex|[r|]]; [reflexivity|reflexivity|congruence].
  - specialize (Hpre 0%nat ltac:(lia)) as H0. rewrite Nat.add_0_r in H0. rewrite H0.
    cbn [fst snd]. replace (i + S k)%nat with (S i + k)%nat in * by lia.
    apply IH; [lia| |exact Hstop].
    intros j Hj. replace (S i + j)%nat with (i + S j)%nat by lia. apply Hpre. lia.
Qed.

Lemma execute_accepted e code s t token url resp :
  endpoint_configured e = true -> auth e = inr token -> post e = PostOk resp ->
  status_code resp = 202%Z -> location resp = Some url -> url <> "" ->
  execute_in_dynamic_session e code s t
  = try_catch (poll_loop e token url 0 10) execution_error_report
      (track_state (pick_or_create_session s e) s)
      ((t ++ [EvGetToken (SESSION_POOL_AUDIENCE e)])
       ++ [EvPost (endpoint_str e ++ "/execute?identifier=" ++ pick_or_create_session s e)
                  token (execution_payload code)])%list.
Proof.
  intros Hc Ha Hp Hs Hl Hu. rewrite execute_run, Hc.
  unfold try_catch, run_execution, handle_202, bind, emit.
  rewrite Ha, Hp, Hs, Hl. apply String.eqb_neq in Hu. rewrite Hu. reflexivity.
Qed.

(** C7 does not hold of the code: when the poll's GET fails at the transport
    level (here the polling URL is unreachable), no poll reaches "Completed",
    yet the report is neither the timeout report nor a network-error report:
    the poll's [requests.get] has no [RequestException] handler, so the
    outer [except Exception] returns the "System Error" report. *)
Lemma accepted_execution_polls_counterexample :
  ~ (forall e code st token url resp,
       endpoint_configured e = true -> auth e = inr token -> post e = PostOk resp ->
       status_code resp = 202%Z -> location resp = Some url -> url <> "" ->
       (forall j, (j < 10)%nat -> forall r, attempt_result e token url j <> inr (Some r)) ->
       result_of (execute_in_dynamic_session e code) st = inr poll_timeout_report).
Proof.
  intros H.
  specialize (H accepted_env "print(1)" empty_state "token" "https://pool.example/operations/1"
                (mk_response 202 (inl "Expecting value: line 1 column 1 (char 0)") (Some "https://pool.example/operations/1") "")
                eq_refl eq_refl eq_refl eq_refl eq_refl ltac:(discriminate)).
  assert (Hn : forall j, (j < 10)%nat -> forall r,
             attempt_result accepted_env "token" "https://pool.example/operations/1" j
             <> inr (Some r)) by (intros j _ r; vm_compute; discriminate).
  specialize (H Hn). vm_compute in H. discriminate H.
Qed.

(** C7, as the code behaves: after an HTTP 202 with a polling URL the session store is
    left unchanged, whatever the polls do. The loop polls the URL once per
    attempt, each time after a 1-second sleep, for at most 10 attempts:
    - if all 10 attempts go on (each poll answers with a non-200 status or
      with a status other than "Completed"), the report is the timeout one,
      after exactly 10 sleeps and 10 GETs;
    - if the first attempts go on and attempt [k] returns a report (a poll
      reporting "Completed" gives "Code executed successfully" and its
      [result]), that report is returned;
    - if the first attempts go on and attempt [k] raises, the report is the
      "System Error" one. *)
Theorem accepted_execution_polls e code st token url resp :
  endpoint_configured e = true -> auth e = inr token -> post e = PostOk resp ->
  status_code resp = 202%Z -> location resp = Some url -> url <> "" ->
  active_sessions (final_state (execute_in_dynamic_session e code) st) = active_sessions st /\
  ((forall j, (j < 10)%nat -> attempt_result e token url j = inr None) ->
     result_of (execute_in_dynamic_session e code) st = inr poll_timeout_report /\
     trace_of (execute_in_dynamic_session e code) st
     = ([EvGetToken (SESSION_POOL_AUDIENCE e);
         EvPost (endpoint_str e ++ "/execute?identifier=" ++ pick_or_create_session st e)
                token (execution_payload code)]
        ++ poll_events url token 10)%list) /\
  (forall k r, (k < 10)%nat ->
     (forall j, (j < k)%nat -> attempt_result e token url j = inr None) ->
     attempt_result e token url k = inr (Some r) ->
     result_of (execute_in_dynamic_session e code) st = inr r) /\
  (forall k ex, (k < 10)%nat ->
     (forall j, (j < k)%nat -> attempt_result e token url j = inr None) ->
     attempt_result e token url k = inl ex -> ex <> RequestTimeout ->
     result_of (execute_in_dynamic_session e code) st
     = inr ("❌ System Error: Unexpected error during session execution: " ++ exn_str ex)) /\
  (forall i pr, polls e i = PollOk pr -> status_code pr <> 200%Z ->
     attempt_result e token url i = inr None) /\
  (forall i pr status, polls e i = PollOk pr -> status_code pr = 200%Z ->
     body pr = inr (JObj [("properties", JObj [("status", JStr status)])]) ->
     status <> "Completed" -> attempt_result e token url i = inr None) /\
  (forall i pr r, polls e i = PollOk pr -> status_code pr = 200%Z ->
     body pr = inr (JObj [("properties", JObj [("status", JStr "Completed");
                                                 ("result", JStr r)])]) ->
     attempt_result e token url i
     = inr (Some ("✅ Code executed successfully:" ++ nl ++ nl ++ r))) /\
  (forall i ex, polls e i = PollRaise ex -> attempt_result e token url i = inl ex).
Proof.
  intros Hc Ha Hp Hs Hl Hu.
  assert (Hrun := fun s t => execute_accepted e code s t token url resp Hc Ha Hp Hs Hl Hu).
  unfold final_state, result_of, trace_of, run. rewrite !Hrun.
  set (s1 := track_state (pick_or_create_session st e) st).
  set (t1 := (([] ++ [EvGetToken (SESSION_POOL_AUDIENCE e)])
              ++ [EvPost (endpoint_str e ++ "/execute?identifier=" ++ pick_or_create_session st e)
                         token (execution_payload code)])%list).
  split; [|split; [|split; [|split; [|split; [|split; [|split]]]]]].
  - unfold try_catch.
    pose proof (poll_loop_state e token url 10 0 s1 t1) as Hst.
    destruct (poll_loop e token url 0 10 s1 t1) as [[s' t'] [ex|r]]; cbn in Hst |- *;
      [destruct ex; cbn|]; subst s'; apply active_track_state.
  - intros Hpend. unfold try_catch. rewrite poll_loop_pending by exact Hpend.
    split; reflexivity.
  - intros k r Hk Hpre Hr. unfold try_catch.
    pose proof (poll_loop_stop e token url k 10 0 s1 t1 Hk Hpre) as Hstop.
    rewrite Nat.add_0_l in Hstop. rewrite Hr in Hstop. specialize (Hstop ltac:(congruence)).
    destruct (poll_loop e token url 0 10 s1 t1) as [[s' t'] res]. cbn in Hstop |- *.
    subst res. reflexivity.
  - intros k ex Hk Hpre Hr Hex. unfold try_catch.
    pose proof (poll_loop_stop e token url k 10 0 s1 t1 Hk Hpre) as Hstop.
    rewrite Nat.add_0_l in Hstop. rewrite Hr in Hstop. specialize (Hstop ltac:(congruence)).
    destruct (poll_loop e token url 0 10 s1 t1) as [[s' t'] res]. cbn in Hstop |- *.
    subst res. destruct ex; try reflexivity. contradiction.
  - intros i pr Hpr Hne. unfold attempt_result, result_of, run, poll_attempt, bind, emit.
    rewrite Hpr. apply Z.eqb_neq in Hne. cbn. rewrite Hne. reflexivity.
  - intros i pr status Hpr H200 Hb Hne. unfold attempt_result, result_of, run, poll_attempt, bind, emit.
    rewrite Hpr. cbn. rewrite H200. unfold parse_body. rewrite Hb. cbn. apply String.eqb_neq in Hne. rewrite Hne. reflexivity.
  - intros i pr r Hpr H200 Hb. unfold attempt_result, result_of, run, poll_attempt, bind, emit.
    rewrite Hpr. cbn. rewrite H200. unfold parse_body. rewrite Hb. reflexivity.
  - intros i ex Hpr. unfold attempt_result, result_of, run, poll_attempt, bind, emit.
    rewrite Hpr. reflexivity.
Qed.

Lemma accepted_execution_polls_witness :
  result_of (execute_in_dynamic_session pending_env "print(1)") empty_state
    = inr poll_timeout_report /\
  trace_of (execute_in_dynamic_session pending_env "print(1)") empty_state
  = ([EvGetToken "https://dynamicsessions.io/.default";
      EvPost "https://pool.example/execute?identifier=0123456789ab" "token"
             (execution_payload "print(1)")]
     ++ poll_events "https://pool.example/operations/1" "token" 10)%list.
Proof.
  refine (proj1 (proj2 (accepted_execution_polls pending_env "print(1)" empty_state "token"
            "https://pool.example/operations/1"
            (mk_response 202 (inl "Expecting value: line 1 column 1 (char 0)") (Some "https://pool.example/operations/1") "")
            eq_refl eq_refl eq_refl eq_refl eq_refl ltac:(discriminate))) _).
  intros j _. vm_compute. reflexivity.
Defined.

(** ** The sandbox server's replies *)

















(** * Further properties of the code *)

(** ** The sandbox server's [execute_code] *)
Lemma run_subprocess_inr se timeout k r :
  run_subprocess se timeout k = inr r ->
  exists a b c, subprocess_run se = ProcDone a b c /\ r = k a b c.
Proof.
  unfold run_subprocess. destruct (subprocess_run se) as [a b c| |ex]; intros H;
    [injection H as <-; eauto | discriminate | discriminate].
Qed.

Lemma execute_body_inr se data r :
  execute_body se data = inr r ->
  (exists msg, r = error_reply msg /\ forall se', execute_body se' data = inr r) \/
  (exists a b c, subprocess_run se = ProcDone a b c
                 /\ (r = shell_reply a b c \/ r = code_reply a b c)).
Proof.
  unfold execute_body. intros H.
  repeat match goal with
         | H : inl _ = inr _ |- _ => discriminate H
         | H : context [sbind ?m _] |- _ => destruct m; cbn [sbind] in H |- *
         | H : context [if ?b then _ else _] |- _ => destruct b
         end.
  all: try (injection H as <-; left; eexists; split; [reflexivity | intros; reflexivity]).
  all: destruct (run_subprocess_inr _ _ _ _ H) as (o1 & o2 & o3 & H1 & H2); right; eauto 7.
Qed.

Lemma execute_code_inr se req r :
  method req = POST -> execute_code se req = inr r ->
  (exists msg, r = error_reply msg /\ forall se', execute_code se' req = inr r) \/
  (exists a b c, subprocess_run se = ProcDone a b c
                 /\ (r = shell_reply a b c \/ r = code_reply a b c)) \/
  reply_status r = 408%Z \/ reply_status r = 500%Z.
Proof.
  intros Hm. unfold execute_code. rewrite Hm.
  destruct (get_json req) as [msg|data].
  - intros H. injection H as <-. left. eexists. split; [reflexivity|intros; reflexivity].
  - destruct (execute_body se data) as [ex|r0] eqn:E.
    + intros H. right; right. destruct ex; cbn in H; try (injection H as <-; right; reflexivity).
      destruct (py_mul1000 timeout); cbn in H; [discriminate|]. injection H as <-. left; reflexivity.
    + intros H. injection H as <-.
      destruct (execute_body_inr se data r0 E) as [(msg & Hr & Hse)|Hp].
      * left. exists msg. split; [exact Hr|]. intros se'. rewrite Hse. reflexivity.
      * right; left. exact Hp.
Qed.

(** X1 ([execute_code]): every 400 reply is decided before any subprocess runs.
    The same request gets the same 400 reply whatever the sandbox would do. *)
Theorem execute_code_400_no_subprocess se se' req r :
  execute_code se req = inr r -> reply_status r = 400%Z -> execute_code se' req = inr r.
Proof.
  intros H Hs. destruct (method req) eqn:Hm.
  - unfold execute_code in H. rewrite Hm in H. injection H as <-. discriminate Hs.
  - destruct (execute_code_inr se req r Hm H) as [(msg & _ & Hse)|[(a & b & c & _ & [-> | ->])|[H4|H5]]];
      [apply Hse | discriminate Hs | discriminate Hs | congruence | congruence].
Qed.

(** The hypotheses of [execute_code_400_no_subprocess] hold at a concrete input. *)
Lemma execute_code_400_no_subprocess_witness :
  execute_code (mk_server_env (ProcDone "1" "" 0) "") (mk_request POST (inr (JObj [("code", JStr "print(1)"); ("language", JStr "cobol")])))
  = inr (error_reply "Unsupported language: cobol").
Proof.
  apply (execute_code_400_no_subprocess sample_server_env); reflexivity.
Defined.

(** X2 ([execute_code]): a POST answered with 200 ran a subprocess that
    finished. The reply is the shell-command or code reply built from that
    subprocess's stdout, stderr and return code. *)
Theorem execute_code_200_from_subprocess se req r :
  method req = POST -> execute_code se req = inr r -> reply_status r = 200%Z ->
  exists stdout stderr rc, subprocess_run se = ProcDone stdout stderr rc
    /\ (r = shell_reply stdout stderr rc \/ r = code_reply stdout stderr rc).
Proof.
  intros Hm H Hs.
  destruct (execute_code_inr se req r Hm H) as [(msg & -> & _)|[Hp|[H4|H5]]];
    [discriminate Hs | exact Hp | congruence | congruence].
Qed.

(** The hypotheses of [execute_code_200_from_subprocess] hold at a concrete input. *)
Lemma execute_code_200_from_subprocess_witness :
  exists stdout stderr rc,
    subprocess_run (mk_server_env (ProcDone "1" "" 0) "") = ProcDone stdout stderr rc
    /\ (code_reply "1" "" 0 = shell_reply stdout stderr rc \/ code_reply "1" "" 0 = code_reply stdout stderr rc).
Proof.
  apply (execute_code_200_from_subprocess (mk_server_env (ProcDone "1" "" 0) "")
           (mk_request POST (inr (JObj [("code", JStr "print(1)")])))); reflexivity.
Defined.



(** X4 ([execute_code]): when [properties] is a non-empty value, the top-level
    fields of the request are ignored. The request behaves like one that has
    only its [properties]. *)
Theorem execute_code_nested_properties se l P :
  obj_lookup l "properties" = Some P -> truthy P = true ->
  execute_code se (mk_request POST (inr (JObj l)))
  = execute_code se (mk_request POST (inr (JObj [("properties", P)]))).
Proof.
  intros H HP. unfold execute_code, execute_body, request_properties, py_get.
  cbn [method get_json]. rewrite H.
  destruct l as [|kv l]; [discriminate H|].
  cbn [truthy negb obj_lookup String.eqb Ascii.eqb Bool.eqb sbind]. rewrite HP. reflexivity.
Qed.

(** The hypotheses of [execute_code_nested_properties] hold at a concrete input. *)
Lemma execute_code_nested_properties_witness :
  execute_code sample_server_env
    (mk_request POST (inr (JObj [("code", JStr "print(2)");
                                 ("properties", JObj [("code", JStr "print(1)")])])))
  = execute_code sample_server_env
      (mk_request POST (inr (JObj [("properties", JObj [("code", JStr "print(1)")])]))).
Proof. apply execute_code_nested_properties; reflexivity. Defined.

(** X5 ([execute_code]): a JSON body that is not an object gets 400 "No JSON
    data provided" when it is falsy. When it is truthy, [data.get] raises and
    the reply is the 500 internal-error reply, with the message
    "'<type>' object has no attribute 'get'". *)
Theorem execute_code_non_object se data :
  (forall l, data <> JObj l) ->
  execute_code se (mk_request POST (inr data))
  = if truthy data
    then inr (internal_error_reply ("'" ++ py_type_name data ++ "' object has no attribute 'get'")
                                   (format_exc se))
    else inr (error_reply "No JSON data provided").
Proof.
  intros H. destruct data; try (exfalso; eapply H; reflexivity);
    unfold execute_code, execute_body; cbn [method get_json];
    destruct (truthy _); reflexivity.
Qed.

(** The hypotheses of [execute_code_non_object] hold at a concrete input. *)
Lemma execute_code_non_object_witness :
  execute_code sample_server_env (mk_request POST (inr (JArr [JNum 1])))
  = inr (internal_error_reply "'list' object has no attribute 'get'" "Traceback (most recent call last)").
Proof. exact (execute_code_non_object sample_server_env (JArr [JNum 1]) (fun l H => ltac:(discriminate H))). Defined.

(** X6 ([execute_code]): a top-level [timeout] of 0 is falsy, so
    [timeoutInSeconds] is used in its place. Without either field the default of
    30 s applies. The 408 reply reports the timeout in milliseconds. *)
Theorem execute_code_timeout_fields se c t u :
  has_content (JStr c) = inr true -> subprocess_run se = ProcTimeout ->
  execute_code se (mk_request POST (inr (JObj [("code", JStr c); ("timeout", JNum t);
                                              ("timeoutInSeconds", JNum u)])))
  = inr (timeout_reply (JNum ((if Z.eqb t 0 then u else t) * 1000))) /\
  execute_code se (mk_request POST (inr (JObj [("code", JStr c); ("timeout", JNum 0)])))
  = inr (timeout_reply (JNum 30000)).
Proof.
  intros Hc Hp. unfold execute_code, execute_body, request_properties, run_subprocess.
  cbn [method get_json truthy negb py_get obj_lookup String.eqb Ascii.eqb Bool.eqb
       sbind py_mapping opt_entry app].
  rewrite Hp. split.
  - destruct (Z.eqb t 0); cbn; rewrite Hc; reflexivity.
  - cbn. rewrite Hc. reflexivity.
Qed.

(** The hypotheses of [execute_code_timeout_fields] hold at a concrete input. *)
Lemma execute_code_timeout_fields_witness :
  execute_code sample_server_env
    (mk_request POST (inr (JObj [("code", JStr "print(1)"); ("timeout", JNum 0);
                                 ("timeoutInSeconds", JNum 5)])))
  = inr (timeout_reply (JNum 5000)).
Proof. exact (proj1 (execute_code_timeout_fields sample_server_env "print(1)" 0 5 eq_refl eq_refl)). Defined.

Lemma has_content_str x : exists b, has_content (JStr x) = inr b.
Proof. unfold has_content. destruct (negb (truthy (JStr x))); eexists; reflexivity. Qed.

(** X7 ([execute_code]): once there is content to run, a non-empty
    [shellCommand] wins over [code]. The shell command runs whatever the
    language is, and a timeout gives the 408 reply for 30 s. *)
Theorem execute_code_shell_precedence se c s lang :
  s <> "" -> (has_content (JStr c) = inr true \/ has_content (JStr s) = inr true) ->
  let req := mk_request POST (inr (JObj [("code", JStr c); ("shellCommand", JStr s);
                                        ("language", lang)])) in
  (forall out err rc, subprocess_run se = ProcDone out err rc ->
     execute_code se req = inr (shell_reply out err rc)) /\
  (subprocess_run se = ProcTimeout -> execute_code se req = inr (timeout_reply (JNum 30000))).
Proof.
  intros Hs Hc req. subst req.
  assert (Ht : truthy (JStr s) = true).
  { cbn. apply String.eqb_neq in Hs. rewrite Hs. reflexivity. }
  destruct (has_content_str c) as [b1 H1], (has_content_str s) as [b2 H2].
  assert (H3 : negb b1 && negb b2 = false).
  { rewrite H1, H2 in Hc. destruct Hc as [Hc|Hc]; injection Hc as ->;
      [reflexivity | apply andb_false_r]. }
  unfold execute_code, execute_body, request_properties, run_subprocess.
  cbn [method get_json truthy negb py_get obj_lookup String.eqb Ascii.eqb Bool.eqb
       sbind py_mapping app].
  pose proof Hs as Hs'. apply String.eqb_neq in Hs'.
  rewrite ?Ht, ?Hs'. cbn [sbind negb].
  destruct lang; cbn [opt_entry app py_get obj_lookup String.eqb Ascii.eqb Bool.eqb sbind];
    rewrite H1, H2; cbn [sbind]; rewrite H3; cbn [orb]; rewrite ?Ht, ?Hs'; cbn [negb];
    (split; [intros out err rc Hp | intros Hp]); rewrite Hp; reflexivity.
Qed.

(** The hypotheses of [execute_code_shell_precedence] hold at a concrete input. *)
Lemma execute_code_shell_precedence_witness :
  execute_code (mk_server_env (ProcDone "" "" 0) "")
    (mk_request POST (inr (JObj [("code", JStr "print(1)"); ("shellCommand", JStr " ");
                                 ("language", JStr "cobol")])))
  = inr (shell_reply "" "" 0).
Proof.
  exact (proj1 (execute_code_shell_precedence (mk_server_env (ProcDone "" "" 0) "")
                  "print(1)" " " (JStr "cobol") ltac:(discriminate) (or_introl eq_refl))
               "" "" 0%Z eq_refl).
Defined.

(** ** The two tools of src/main.py *)

Lemma execute_never_raises e code s t :
  exists s' t' r, execute_in_dynamic_session e code s t = (s', t', inr r).
Proof.
  rewrite execute_run. destruct (endpoint_configured e); [|do 3 eexists; reflexivity].
  unfold try_catch.
  destruct (run_execution e code (pick_or_create_session s e) (track_state (pick_or_create_session s e) s) t)
    as [[s' t'] [ex|r]]; [|do 3 eexists; reflexivity].
  unfold execution_error_report. destruct ex; do 3 eexists; reflexivity.
Qed.

Lemma run_tool_never_raises c s t :
  exists s' t' r, run_tool c s t = (s', t', inr r).
Proof.
  destruct c as [|e code]; cbn [run_tool]; [|apply execute_never_raises].
  unfold search_tools_available, bind, modify, ret. eauto.
Qed.

Lemma run_calls_inr cs :
  forall s t, exists s' t' rs, run_calls cs s t = (s', t', inr rs) /\ length rs = length cs.
Proof.
  induction cs as [|c cs IH]; intros s t; cbn [run_calls].
  - exists s, t, []. split; reflexivity.
  - unfold bind at 1. destruct (run_tool_never_raises c s t) as (s1 & t1 & r & E). rewrite E.
    unfold bind. destruct (IH s1 t1) as (s2 & t2 & rs & E2 & Hl). rewrite E2.
    exists s2, t2, (r :: rs). split; [reflexivity|]. cbn. rewrite Hl. reflexivity.
Qed.

(** X8 ([search_tools_available], [execute_in_dynamic_session]): neither tool
    ever raises. A sequence of tool calls always completes with exactly one
    report per call. *)
Theorem run_calls_reports cs st :
  exists reports, result_of (run_calls cs) st = inr reports /\ length reports = length cs.
Proof.
  destruct (run_calls_inr cs st []) as (s' & t' & rs & E & Hl).
  exists rs. unfold result_of, run. rewrite E. split; [reflexivity|exact Hl].
Qed.

(** X9 ([execute_in_dynamic_session]): the session store changes only when the
    sandbox answers HTTP 200 with a JSON body. Without such an answer,
    [active_sessions] is the same after the call. *)
Theorem store_unchanged_without_json_200 e code st :
  (forall resp, post e = PostOk resp -> status_code resp = 200%Z ->
     exists msg, body resp = inl msg) ->
  active_sessions (final_state (execute_in_dynamic_session e code) st) = active_sessions st.
Proof.
  intros H. unfold final_state, run. rewrite execute_run.
  set (sid := pick_or_create_session st e).
  destruct (endpoint_configured e); [|apply active_track_state].
  set (P := fun (s : state) (_ : list event) => active_sessions s = active_sessions st).
  assert (Hp : preserves P (try_catch (run_execution e code sid) execution_error_report)).
  { apply preserves_try_catch; [|intros ex; unfold execution_error_report; repeat pres_step].
    unfold run_execution.
    apply preserves_bind; [apply preserves_emit; auto|intros _].
    destruct (auth e) as [err|token]; [apply preserves_ret|].
    apply preserves_bind; [apply preserves_emit; auto|intros _].
    destruct (post e) as [resp|msg] eqn:Hpost; [|apply preserves_ret].
    destruct (Z.eqb (status_code resp) 200) eqn:E200.
    - apply Z.eqb_eq in E200. destruct (H resp eq_refl E200) as [m Hm].
      unfold handle_200, parse_body. rewrite Hm. apply preserves_lift.
    - destruct (Z.eqb (status_code resp) 202); [|apply preserves_ret].
      unfold handle_202. destruct (location resp) as [url|]; [|apply preserves_ret].
      destruct (String.eqb url ""); [apply preserves_ret|].
      intros s t Hs. rewrite poll_loop_state. exact Hs. }
  apply Hp. unfold P. apply active_track_state.
Qed.

(** The hypotheses of [store_unchanged_without_json_200] hold at a concrete input. *)
Lemma store_unchanged_without_json_200_witness :
  active_sessions (final_state (execute_in_dynamic_session accepted_env "print(1)") empty_state)
  = active_sessions empty_state.
Proof.
  apply store_unchanged_without_json_200. intros resp H. injection H as <-. discriminate.
Defined.

(** X10 ([execute_in_dynamic_session]): with the endpoint configured there are
    four failure paths: authentication failure, a failed POST, an HTTP status
    other than 200 and 202, and a 200 whose body is not JSON (reported with
    the decoder's message). Each returns its
    own report string. The authentication failure emits only the token request,
    and the other three emit the token request and the one POST. In each case
    the store is unchanged and only the tracker is updated. *)
Theorem execute_failure_reports e code st :
  endpoint_configured e = true ->
  let sid := pick_or_create_session st e in
  let get_token := EvGetToken (SESSION_POOL_AUDIENCE e) in
  let send token := EvPost (endpoint_str e ++ "/execute?identifier=" ++ sid) token
                      (execution_payload code) in
  (forall err, auth e = inl err ->
     run (execute_in_dynamic_session e code) st
     = (track_state sid st, [get_token],
        inr ("Authentication error: Unable to get access token. Error: " ++ err))) /\
  (forall token msg, auth e = inr token -> post e = PostFail msg ->
     run (execute_in_dynamic_session e code) st
     = (track_state sid st, [get_token; send token],
        inr ("Network error: Unable to connect to session pool. Error: " ++ msg))) /\
  (forall token resp, auth e = inr token -> post e = PostOk resp ->
     status_code resp <> 200%Z -> status_code resp <> 202%Z ->
     run (execute_in_dynamic_session e code) st
     = (track_state sid st, [get_token; send token],
        inr ("❌ Execution Error: Session execution failed (HTTP "
             ++ Z_to_dec (status_code resp) ++ "): " ++ text resp))) /\
  (forall token resp msg, auth e = inr token -> post e = PostOk resp ->
     status_code resp = 200%Z -> body resp = inl msg ->
     run (execute_in_dynamic_session e code) st
     = (track_state sid st, [get_token; send token],
        inr ("❌ System Error: Unexpected error during session execution: " ++ msg))).
Proof.
  intros Hc sid get_token send. unfold run. rewrite execute_run, Hc. fold sid.
  unfold try_catch, run_execution, bind, emit.
  repeat split.
  - intros err Ha. rewrite Ha. reflexivity.
  - intros token msg Ha Hp. rewrite Ha, Hp. reflexivity.
  - intros token resp Ha Hp H200 H202. rewrite Ha, Hp.
    apply Z.eqb_neq in H200, H202. rewrite H200, H202. reflexivity.
  - intros token resp msg Ha Hp H200 Hb. rewrite Ha, Hp, H200. cbn [Z.eqb Pos.eqb].
    unfold handle_200, parse_body, bind, lift. rewrite Hb. reflexivity.
Qed.

(** The hypotheses of [execute_failure_reports] hold at a concrete input. *)
Lemma execute_failure_reports_witness :
  run (execute_in_dynamic_session sample_env "print(1)") empty_state
  = (track_state "0123456789ab" empty_state,
     [EvGetToken "https://dynamicsessions.io/.default";
      EvPost ("https://pool.example" ++ "/execute?identifier=" ++ "0123456789ab") "token"
        (execution_payload "print(1)")],
     inr ("Network error: Unable to connect to session pool. Error: " ++ "unreachable")).
Proof.
  exact (proj1 (proj2 (execute_failure_reports sample_env "print(1)" empty_state eq_refl))
           "token" "unreachable" eq_refl eq_refl).
Defined.

Lemma lookup_map_upd_other l k f k' :
  k <> k' -> lookup_session (map_upd k f l) k' = lookup_session l k'.
Proof.
  intros Hk. induction l as [|[k0 r0] l IH]; simpl; auto.
  destruct (String.eqb k0 k) eqn:E; simpl; rewrite IH; auto.
  apply String.eqb_eq in E. subst k0.
  apply String.eqb_neq in Hk. rewrite Hk. reflexivity.
Qed.

Lemma lookup_app l l' k :
  lookup_session (l ++ l') k
  = match lookup_session l k with Some r => Some r | None => lookup_session l' k end.
Proof.
  induction l as [|[k0 r0] l IH]; simpl; auto.
  destruct (String.eqb k0 k); auto.
Qed.

Lemma has_key_false_lookup l k : has_key l k = false -> lookup_session l k = None.
Proof.
  induction l as [|[k0 r0] l IH]; simpl; auto.
  destruct (String.eqb k0 k); simpl; [discriminate|auto].
Qed.

Lemma lookup_allocated e k l :
  lookup_session (allocated e k l) k
  = Some (match lookup_session l k with
          | Some r => r
          | None => mk_session (now e) 0 (JStr "") (JStr "") None None None
          end).
Proof.
  unfold allocated. destruct (has_key l k) eqn:H.
  - destruct (has_key_lookup l k H) as [r Hr]. rewrite Hr. reflexivity.
  - rewrite lookup_app, (has_key_false_lookup l k H). simpl.
    rewrite String.eqb_refl. reflexivity.
Qed.

Lemma lookup_allocated_other e k l k' :
  k <> k' -> lookup_session (allocated e k l) k' = lookup_session l k'.
Proof.
  intros Hk. unfold allocated. destruct (has_key l k); auto.
  rewrite lookup_app. destruct (lookup_session l k'); auto. simpl.
  apply String.eqb_neq in Hk. rewrite Hk. reflexivity.
Qed.

Section Counters.

Variables (S : string) (cnt : Z) (cr : string) (lu : option string)
          (L : string -> option session).

Let CInv (s : state) (_ : list event) : Prop :=
  (exists r, lookup_session (active_sessions s) S = Some r /\
             execution_count r = cnt /\ created_at r = cr /\ last_used r = lu) /\
  (forall k, k <> S -> lookup_session (active_sessions s) k = L k).

Lemma cinv_upd f :
  (forall r, execution_count (f r) = execution_count r /\ created_at (f r) = created_at r
             /\ last_used (f r) = last_used r) ->
  preserves CInv (upd_session S f).
Proof.
  intros Hf s t [(r & Hr & H1 & H2 & H3) HL].
  unfold upd_session, bind, get, modify, raise. cbn [fst snd].
  destruct (has_key (active_sessions s) S); cbn [fst snd]; [|split; eauto].
  split.
  - exists (f r). cbn [active_sessions set_sessions]. rewrite lookup_map_upd, Hr.
    destruct (Hf r) as (E1 & E2 & E3). repeat split; congruence.
  - intros k Hk. cbn [active_sessions set_sessions].
    rewrite lookup_map_upd_other by congruence. auto.
Qed.

Ltac cinv_step :=
  first [ apply cinv_upd; intros r; repeat split | pres_step ].

Lemma cinv_classify_wrapped result : preserves CInv (classify_wrapped S result).
Proof. unfold classify_wrapped. repeat cinv_step. Qed.

Lemma cinv_classify_direct result : preserves CInv (classify_direct S result).
Proof. unfold classify_direct. repeat cinv_step. Qed.

Lemma cinv_get_session : preserves CInv (get_session S).
Proof. unfold get_session. repeat pres_step. Qed.

End Counters.

(** X11 ([execute_in_dynamic_session]): on an HTTP 200 with a JSON body, the
    entry of the session the call picked has its [execution_count] raised by one
    and [last_used] set to now. Its [created_at] is kept, or is now for a new
    entry. Every other key's entry is unchanged. *)
Theorem execution_count_on_json_200 e code st token resp j :
  endpoint_configured e = true -> auth e = inr token -> post e = PostOk resp ->
  status_code resp = 200%Z -> body resp = inr j ->
  let sid := pick_or_create_session st e in
  let old := match lookup_session (active_sessions st) sid with
             | Some r => r
             | None => mk_session (now e) 0 (JStr "") (JStr "") None None None
             end in
  (exists r, stored (execute_in_dynamic_session e code) st sid = Some r /\
             execution_count r = (execution_count old + 1)%Z /\
             created_at r = created_at old /\ last_used r = Some (now e)) /\
  (forall k, k <> sid ->
     stored (execute_in_dynamic_session e code) st k = lookup_session (active_sessions st) k).
Proof.
  intros Hc Ha Hp Hs Hb sid old.
  set (CI := fun (s : state) (_ : list event) =>
    (exists r, lookup_session (active_sessions s) sid = Some r /\
               execution_count r = (execution_count old + 1)%Z /\
               created_at r = created_at old /\ last_used r = Some (now e)) /\
    (forall k, k <> sid -> lookup_session (active_sessions s) k
                           = lookup_session (active_sessions st) k)).
  enough (H : CI (final_state (execute_in_dynamic_session e code) st) []) by exact H.
  unfold final_state, run. rewrite execute_run, Hc. fold sid.
  unfold try_catch, run_execution, bind, emit.
  rewrite Ha, Hp, Hs. cbn [Z.eqb Pos.eqb].
  unfold handle_200, parse_body. rewrite Hb, bind_lift_inr, bind_allocate_session.
  rewrite bind_upd_session by has_key_side. rewrite bind_upd_session by has_key_side.
  set (s1 := set_sessions _ _).
  match goal with
  | |- CI (fst (fst (match ?m s1 ?t1 with _ => _ end))) _ =>
      assert (Hm : preserves CI (try_catch m execution_error_report))
  end.
  { apply preserves_try_catch; [|intros ex; unfold execution_error_report; repeat pres_step].
    repeat first [ apply cinv_classify_wrapped | apply cinv_classify_direct
                 | apply cinv_get_session | pres_step ]. }
  refine (Hm s1 _ _). unfold CI, s1. rewrite !active_set_sessions, active_track_state.
  split.
  - rewrite !lookup_map_upd, lookup_allocated. fold old.
    eexists. split; [reflexivity|]. cbn. repeat split.
  - intros k Hk. rewrite !lookup_map_upd_other, lookup_allocated_other by congruence.
    reflexivity.
Qed.

(** The hypotheses of [execution_count_on_json_200] hold at a concrete input. *)
Lemma execution_count_on_json_200_witness :
  (exists r, stored (execute_in_dynamic_session completed_env "print(1)") one_session_state "abc"
             = Some r /\ execution_count r = 4%Z /\ created_at r = "2023-12-31T00:00:00"
             /\ last_used r = Some "2024-01-01T00:00:00") /\
  (forall k, k <> "abc" ->
     stored (execute_in_dynamic_session completed_env "print(1)") one_session_state k
     = lookup_session (active_sessions one_session_state) k).
Proof.
  exact (execution_count_on_json_200 completed_env "print(1)" one_session_state "token"
           (mk_response 200 (inr (JObj [("output", JStr "1")])) None "")
           (JObj [("output", JStr "1")]) eq_refl eq_refl eq_refl eq_refl eq_refl).
Defined.

Lemma run_tool_search_records c s t s' t' r :
  run_tool c s t = (s', t', r) ->
  length (filter is_search_record (current_tools_used s'))
  = (length (filter is_search_record (current_tools_used s))
     + match c with CallSearch => 1 | CallExec _ _ => 0 end)%nat.
Proof.
  destruct c as [|e code]; cbn [run_tool].
  - unfold search_tools_available, bind, modify, ret. intros H. injection H as <- _ _.
    cbn [current_tools_used]. rewrite filter_app. rewrite length_app. reflexivity.
  - intros H.
    set (sid := pick_or_create_session s e).
    set (T := current_tools_used (track_state sid s)).
    assert (Ht : current_tools_used s' = T).
    { replace s' with (fst (fst (execute_in_dynamic_session e code s t))) by (rewrite H; reflexivity).
      rewrite execute_run. fold sid. destruct (endpoint_configured e); [|reflexivity].
      refine (proj2 (proj2 (inv_run_execution_caught sid (fun _ => True) (fun _ => True)
                (fun tools _ => tools = T) _ _ _ _ _ e code _ t _))); auto.
      repeat split; auto. apply Forall_forall. auto. }
    rewrite Ht. unfold T. rewrite tools_track_state, filter_app, length_app.
    destruct (existsb _ _); cbn; lia.
Qed.

Lemma run_calls_search_records cs :
  forall s t, length (filter is_search_record (current_tools_used (fst (fst (run_calls cs s t)))))
              = (length (filter is_search_record (current_tools_used s)) + count_search cs)%nat.
Proof.
  induction cs as [|c cs IH]; intros s t; cbn [run_calls].
  - cbn. lia.
  - unfold bind at 1. destruct (run_tool c s t) as [[s1 t1] r1] eqn:E.
    destruct (run_tool_never_raises c s t) as (s2 & t2 & r2 & E2).
    rewrite E in E2. injection E2 as -> -> ->.
    assert (Hf : forall m : M (list string),
               fst (fst (bind m (fun rs => ret (r2 :: rs)) s2 t2)) = fst (fst (m s2 t2))).
    { intros m. unfold bind. destruct (m s2 t2) as [[? ?] [?|?]]; reflexivity. }
    rewrite Hf, IH, (run_tool_search_records c s t s2 t2 (inr r2) E).
    unfold count_search. destruct c; cbn [filter length]; lia.
Qed.

(** X12 ([search_tools_available], [execute_in_dynamic_session]): the number of
    discovery-tool records added to [current_tools_used] by a sequence of tool
    calls is the number of discovery calls in it. The Execution Tool never adds
    such a record. *)
Theorem search_records_count cs st :
  length (filter is_search_record (current_tools_used (final_state (run_calls cs) st)))
  = (length (filter is_search_record (current_tools_used st)) + count_search cs)%nat.
Proof. apply run_calls_search_records. Qed.

(** ** The Flask views of src/main.py *)







Lemma hkey_eqb_eq x y : hkey_eqb x y = true <-> x = y.
Proof.
  destruct x, y; cbn; split; intros H; try discriminate; try reflexivity.
  - apply Z.eqb_eq in H. congruence.
  - injection H as <-. apply Z.eqb_refl.
  - apply String.eqb_eq in H. congruence.
  - injection H as <-. apply String.eqb_refl.
Qed.

Lemma thread_lookup_app l l' k :
  thread_lookup (l ++ l') k
  = match thread_lookup l k with Some th => Some th | None => thread_lookup l' k end.
Proof.
  induction l as [|[k0 th0] l IH]; cbn; auto.
  destruct (hkey_eqb k0 k); auto.
Qed.

Lemma thread_lookup_extend l l' k th :
  thread_lookup l k = Some th -> thread_lookup (l ++ l') k = Some th.
Proof. intros H. rewrite thread_lookup_app, H. reflexivity. Qed.

Lemma threads_with_keeps ce k0 l k th :
  thread_lookup l k = Some th -> thread_lookup (threads_with ce k0 l) k = Some th.
Proof.
  intros H. unfold threads_with. destruct (thread_lookup l k0); auto.
  apply thread_lookup_extend. exact H.
Qed.

Lemma threads_with_binds ce k l : exists th, thread_lookup (threads_with ce k l) k = Some th.
Proof.
  unfold threads_with. destruct (thread_lookup l k) as [th|] eqn:E; eauto.
  rewrite thread_lookup_app, E. cbn. rewrite (proj2 (hkey_eqb_eq k k) eq_refl). eauto.
Qed.

Lemma Chat_post_threads ce rj a :
  conversation_threads (fst (Chat_post ce rj a)) = conversation_threads a \/
  exists k, conversation_threads (fst (Chat_post ce rj a))
            = threads_with ce k (conversation_threads a).
Proof.
  unfold Chat_post.
  destruct rj as [msg|data]; [left; reflexivity|].
  destruct (py_get data "prompt" (JStr "")) as [ex|prompt]; [left; reflexivity|].
  destruct (py_get data "session_id" (JStr "default")) as [ex|sid]; [left; reflexivity|].
  destruct (negb (truthy prompt)); [left; reflexivity|].
  destruct (negb (agent_configured ce)); [left; reflexivity|].
  destruct (py_hash_key sid) as [ex|k]; [left; reflexivity|].
  right. exists k.
  destruct (run (chat_agent_run ce prompt) (tool_state a)) as [[st t] [ex|[[txt used] ss]]];
    reflexivity.
Qed.

Lemma stream_body_threads sv threads sid a :
  conversation_threads (fst (stream_body sv threads sid a)) = threads.
Proof.
  unfold stream_body. destruct (negb (stream_agent_configured sv)); [reflexivity|].
  destruct (stream_error sv); reflexivity.
Qed.

Lemma ChatStream_post_threads sv rj a :
  conversation_threads (fst (ChatStream_post sv rj a)) = conversation_threads a \/
  exists k, conversation_threads (fst (ChatStream_post sv rj a))
            = (conversation_threads a ++ [(k, stream_new_thread sv)])%list.
Proof.
  unfold ChatStream_post.
  destruct rj as [msg|data]; [left; reflexivity|].
  destruct (py_get data "prompt" (JStr "")) as [ex|prompt]; [left; reflexivity|].
  destruct (py_get data "session_id" (JStr "default")) as [ex|sid]; [left; reflexivity|].
  destruct (negb (truthy prompt)); [left; reflexivity|].
  destruct (py_hash_key sid) as [ex|k]; [left; reflexivity|].
  destruct (thread_lookup (conversation_threads a) k).
  - left. apply stream_body_threads.
  - destruct (stream_agent_configured sv); [|left; reflexivity].
    right. exists k. apply stream_body_threads.
Qed.

(** X16 ([Chat.post], [ChatStream.post]): neither chat view drops or rebinds an
    existing conversation thread. A session's thread, once created, stays the
    same. *)
Theorem chat_views_keep_threads ce sv rj a k th :
  thread_lookup (conversation_threads a) k = Some th ->
  thread_lookup (conversation_threads (fst (Chat_post ce rj a))) k = Some th /\
  thread_lookup (conversation_threads (fst (ChatStream_post sv rj a))) k = Some th.
Proof.
  intros H. split.
  - destruct (Chat_post_threads ce rj a) as [E|[k0 E]]; rewrite E; auto.
    apply threads_with_keeps. exact H.
  - destruct (ChatStream_post_threads sv rj a) as [E|[k0 E]]; rewrite E; auto.
    apply thread_lookup_extend. exact H.
Qed.

(** The hypotheses of [chat_views_keep_threads] hold at a concrete input. *)
Lemma chat_views_keep_threads_witness :
  thread_lookup (conversation_threads
    (fst (Chat_post sample_chat_env (inr (JObj [("prompt", JStr "hello")])) threaded_app)))
    (HStr "default") = Some 3%nat /\
  thread_lookup (conversation_threads
    (fst (ChatStream_post sample_stream_env (inr (JObj [("prompt", JStr "hello")])) threaded_app)))
    (HStr "default") = Some 3%nat.
Proof.
  exact (chat_views_keep_threads sample_chat_env sample_stream_env
           (inr (JObj [("prompt", JStr "hello")])) threaded_app (HStr "default") 3%nat eq_refl).
Defined.

Lemma thread_lookup_delete l k k' :
  thread_lookup (thread_delete k l) k' = if hkey_eqb k' k then None else thread_lookup l k'.
Proof.
  unfold thread_delete. induction l as [|[k0 th0] l IH]; cbn [filter thread_lookup fst].
  - destruct (hkey_eqb k' k); reflexivity.
  - destruct (hkey_eqb k0 k) eqn:E0; cbn [negb thread_lookup]; rewrite IH.
    + apply hkey_eqb_eq in E0. subst k0.
      destruct (hkey_eqb k' k) eqn:E1; [reflexivity|].
      destruct (hkey_eqb k k') eqn:E2; [|reflexivity].
      apply hkey_eqb_eq in E2. subst k'. rewrite (proj2 (hkey_eqb_eq k k) eq_refl) in E1.
      discriminate.
    + destruct (hkey_eqb k0 k') eqn:E2; [|reflexivity].
      apply hkey_eqb_eq in E2. subst k'. rewrite E0. reflexivity.
Qed.

(** X17 ([SessionManager.delete]): deleting an unknown session gives 404 and
    changes nothing. Deleting a known session gives 200, removes only that
    session's thread, leaves the tool globals alone, and a second delete gives
    404. *)
Theorem SessionManager_delete_behaviour s a :
  (thread_lookup (conversation_threads a) (HStr s) = None ->
     SessionManager_delete s a
     = (a, mk_reply 404 (JObj [("message", JStr ("Session " ++ s ++ " not found"))]))) /\
  (forall th, thread_lookup (conversation_threads a) (HStr s) = Some th ->
     let a' := fst (SessionManager_delete s a) in
     reply_status (snd (SessionManager_delete s a)) = 200%Z /\
     thread_lookup (conversation_threads a') (HStr s) = None /\
     (forall k, k <> HStr s ->
        thread_lookup (conversation_threads a') k = thread_lookup (conversation_threads a) k) /\
     tool_state a' = tool_state a /\
     reply_status (snd (SessionManager_delete s a')) = 404%Z).
Proof.
  split.
  - intros H. unfold SessionManager_delete. rewrite H. reflexivity.
  - intros th H a'.
    assert (Hl : forall k, thread_lookup (conversation_threads a') k
                           = if hkey_eqb k (HStr s) then None
                             else thread_lookup (conversation_threads a) k).
    { intros k. unfold a', SessionManager_delete. rewrite H. cbn [fst conversation_threads].
      apply thread_lookup_delete. }
    assert (Hs : thread_lookup (conversation_threads a') (HStr s) = None).
    { rewrite Hl. cbn. rewrite String.eqb_refl. reflexivity. }
    split; [unfold SessionManager_delete; rewrite H; reflexivity|].
    split; [exact Hs|]. split.
    + intros k Hk. rewrite Hl. destruct (hkey_eqb k (HStr s)) eqn:E; [|reflexivity].
      apply hkey_eqb_eq in E. contradiction.
    + split; [unfold a', SessionManager_delete; rewrite H; reflexivity|].
      unfold SessionManager_delete at 1. rewrite Hs. reflexivity.
Qed.

(** X18 ([Chat.post], [SessionManager.delete]): after a chat request with a
    truthy prompt, a configured agent and a string session id, deleting that
    session succeeds with 200. This holds even when the agent run itself failed. *)
Theorem Chat_post_then_delete ce l a s :
  agent_configured ce = true ->
  truthy (match obj_lookup l "prompt" with Some p => p | None => JStr "" end) = true ->
  obj_lookup l "session_id" = Some (JStr s) ->
  reply_status (snd (SessionManager_delete s (fst (Chat_post ce (inr (JObj l)) a)))) = 200%Z.
Proof.
  intros Hc Hp Hs.
  assert (E : conversation_threads (fst (Chat_post ce (inr (JObj l)) a))
              = threads_with ce (HStr s) (conversation_threads a)).
  { unfold Chat_post. cbn [py_get]. rewrite Hs.
    destruct (obj_lookup l "prompt"); rewrite Hp; cbn [negb]; rewrite Hc; cbn [negb py_hash_key];
      (destruct (run _ _) as [[st t] [ex|[[txt used] ss]]]; reflexivity). }
  destruct (threads_with_binds ce (HStr s) (conversation_threads a)) as [th Hth].
  unfold SessionManager_delete. rewrite E, Hth. reflexivity.
Qed.

(** The hypotheses of [Chat_post_then_delete] hold at a concrete input. *)
Lemma Chat_post_then_delete_witness :
  reply_status (snd (SessionManager_delete "abc"
    (fst (Chat_post sample_chat_env (inr (JObj [("prompt", JStr "hi"); ("session_id", JStr "abc")]))
            empty_app)))) = 200%Z.
Proof.
  exact (Chat_post_then_delete sample_chat_env [("prompt", JStr "hi"); ("session_id", JStr "abc")]
           empty_app "abc" eq_refl eq_refl eq_refl).
Defined.

(** X19 ([TestSessionPayload.post]): string code made only of whitespace
    (Python's [str.isspace], Unicode spaces included) gives 400 "No code provided". Other string code gives 200 with the code and its
    length in code points. A null code fails at [len] with 500. A non-empty body
    without [properties] gives 400 "No code provided". *)
Theorem TestSessionPayload_code_cases l :
  (forall pl c, obj_lookup l "properties" = Some (JObj pl) -> obj_lookup pl "code" = Some (JStr c) ->
     TestSessionPayload_post (inr (JObj l))
     = if py_all_space (list_ascii_of_string c)
       then mk_reply 400 (error_body "No code provided")
       else mk_reply 200 (JObj [("success", JBool true); ("code_received", JStr c);
              ("length", JNum (Z.of_nat (length (filter (fun ch => negb (is_utf8_cont ch))
                                                        (list_ascii_of_string c)))))])) /\
  (forall pl, obj_lookup l "properties" = Some (JObj pl) -> obj_lookup pl "code" = Some JNull ->
     TestSessionPayload_post (inr (JObj l))
     = mk_reply 500 (error_body "object of type 'NoneType' has no len()")) /\
  (l <> [] -> obj_lookup l "properties" = None ->
     TestSessionPayload_post (inr (JObj l)) = mk_reply 400 (error_body "No code provided")).
Proof.
  assert (Hl : forall v, obj_lookup l "properties" = Some v -> truthy (JObj l) = true).
  { intros v H. destruct l; [discriminate|reflexivity]. }
  split; [|split].
  - intros pl c Hp Hc. unfold TestSessionPayload_post. rewrite (Hl _ Hp). cbn [negb].
    cbn [py_get]. rewrite Hp. cbn [sbind py_get]. rewrite Hc. cbn [sbind py_len].
    unfold has_content. cbn [truthy].
    destruct (String.eqb c "") eqn:E; cbn [negb sbind].
    + apply String.eqb_eq in E. subst c. reflexivity.
    + destruct (py_all_space (list_ascii_of_string c)); reflexivity.
  - intros pl Hp Hc. unfold TestSessionPayload_post. rewrite (Hl _ Hp). cbn [negb].
    cbn [py_get]. rewrite Hp. cbn [sbind py_get]. rewrite Hc. reflexivity.
  - intros Hne Hp. unfold TestSessionPayload_post.
    destruct l as [|kv l]; [congruence|]. cbn [truthy negb].
    cbn [py_get]. rewrite Hp. reflexivity.
Qed.

Lemma append_empty_r s : (s ++ "")%string = s.
Proof. induction s as [|c s IH]; cbn; [reflexivity|rewrite IH; reflexivity]. Qed.

Lemma concat_empty_sep l : String.concat "" l = fold_right append "" l.
Proof.
  induction l as [|x l IH]; [reflexivity|].
  destruct l as [|y l].
  - cbn. symmetry. apply append_empty_r.
  - change (String.concat "" (x :: y :: l)) with (x ++ "" ++ String.concat "" (y :: l))%string.
    rewrite IH. reflexivity.
Qed.

Lemma concat_collect_stream cs : String.concat "" (collect_stream cs) = String.concat "" cs.
Proof.
  rewrite !concat_empty_sep. unfold collect_stream.
  induction cs as [|c cs IH]; [reflexivity|]. cbn [filter fold_right].
  destruct (String.eqb c "") eqn:E; cbn [negb fold_right].
  - apply String.eqb_eq in E. subst c. exact IH.
  - rewrite IH. reflexivity.
Qed.

Lemma extends_trans s1 s2 s3 : extends s1 s2 -> extends s2 s3 -> extends s1 s3.
Proof.
  intros [[X1 H1] [Y1 G1]] [[X2 H2] [Y2 G2]]. split.
  - exists (X1 ++ X2)%list. rewrite H2, H1, app_assoc. reflexivity.
  - exists (Y2 ++ Y1)%list. rewrite G2, G1, app_assoc. reflexivity.
Qed.

Lemma run_tool_extends c s t : extends s (fst (fst (run_tool c s t))).
Proof.
  destruct c as [|e code]; cbn [run_tool].
  - unfold search_tools_available, bind, modify, ret. cbn. split; eexists; [reflexivity|].
    instantiate (1 := []). reflexivity.
  - rewrite execute_run.
    set (sid := pick_or_create_session s e).
    assert (Ht : extends s (track_state sid s)).
    { unfold track_state. destruct (existsb _ _); split.
      - exists []. rewrite app_nil_r. reflexivity.
      - exists []. reflexivity.
      - eexists. reflexivity.
      - exists [sid]. reflexivity. }
    destruct (endpoint_configured e); [|exact Ht].
    set (T := current_tools_used (track_state sid s)).
    set (Sn := current_request_sessions (track_state sid s)).
    match goal with
    | |- extends s (fst (fst ?m)) =>
        assert (HTS : current_tools_used (fst (fst m)) = T /\ current_request_sessions (fst (fst m)) = Sn)
    end.
    { refine (proj2 (proj2 (inv_run_execution_caught sid (fun _ => True) (fun _ => True)
                (fun tools seen => tools = T /\ seen = Sn) (fun _ _ _ => I) (fun _ => I)
                (fun _ _ _ => I) (fun _ => I) (fun _ _ => I) e code (track_state sid s) t _))).
      repeat split; auto. apply Forall_forall. auto. }
    destruct HTS as [HT HS].
    destruct Ht as [[X HX] [Y HY]].
    split; [exists X; rewrite HT; exact HX | exists Y; rewrite HS; exact HY].
Qed.

Lemma run_calls_extends cs s0 : preserves (fun s _ => extends s0 s) (run_calls cs).
Proof.
  induction cs as [|c cs IH]; cbn [run_calls]; [apply preserves_ret|].
  apply preserves_bind; [|intros r; apply preserves_bind; [exact IH|intros; apply preserves_ret]].
  intros s t H. exact (extends_trans _ _ _ H (run_tool_extends c s t)).
Qed.

(** X20 ([ChatStream.post]): for a truthy prompt with the agent configured, the
    streaming view does not reset the tracker. The records and session ids of
    the previous request are kept, and the stream's tool calls only append to
    them. On success the text is the concatenation of all chunks, and
    [chunks_received] counts only the non-empty ones. *)
Theorem ChatStream_post_streams sv l a prompt k :
  stream_agent_configured sv = true ->
  obj_lookup l "prompt" = Some prompt -> truthy prompt = true ->
  py_hash_key (match obj_lookup l "session_id" with Some v => v | None => JStr "default" end)
    = inr k ->
  let a' := fst (ChatStream_post sv (inr (JObj l)) a) in
  tool_state a' = final_state (run_calls (stream_calls sv)) (tool_state a) /\
  (exists X, current_tools_used (tool_state a') = (current_tools_used (tool_state a) ++ X)%list) /\
  (exists Y, current_request_sessions (tool_state a')
             = (Y ++ current_request_sessions (tool_state a))%list) /\
  match stream_error sv with
  | Some ex => snd (ChatStream_post sv (inr (JObj l)) a) = ViewError 500 (exn_str ex)
  | None => exists r, snd (ChatStream_post sv (inr (JObj l)) a) = ViewOk r /\
              stream_text r = String.concat "" (stream_chunks sv) /\
              chunks_received r
                = Z.of_nat (length (filter (fun c => negb (String.eqb c "")) (stream_chunks sv)))
  end.
Proof.
  intros Hc Hp Ht Hk a'.
  assert (E : tool_state a' = final_state (run_calls (stream_calls sv)) (tool_state a) /\
              snd (ChatStream_post sv (inr (JObj l)) a)
              = snd (stream_body sv (conversation_threads (fst (ChatStream_post sv (inr (JObj l)) a)))
                       (match obj_lookup l "session_id" with Some v => v | None => JStr "default" end) a)).
  { unfold a', ChatStream_post. cbn [py_get]. rewrite Hp.
    destruct (obj_lookup l "session_id"); rewrite Ht; cbn [negb]; rewrite Hk;
      (destruct (thread_lookup (conversation_threads a) k); [|rewrite Hc]);
      unfold stream_body; rewrite Hc; cbn [negb];
      destruct (stream_error sv); split; reflexivity. }
  destruct E as [E1 E2]. rewrite E1.
  pose proof (run_calls_extends (stream_calls sv) (tool_state a) (tool_state a) []) as Hx.
  destruct Hx as [HX HY]; [split; [exists []; rewrite app_nil_r | exists []]; reflexivity|].
  split; [reflexivity|]. split; [exact HX|]. split; [exact HY|].
  rewrite E2. unfold stream_body. rewrite Hc. cbn [negb].
  destruct (stream_error sv); [reflexivity|].
  eexists. split; [reflexivity|]. cbn. split; [apply concat_collect_stream|reflexivity].
Qed.

(** The hypotheses of [ChatStream_post_streams] hold at a concrete input. *)
Lemma ChatStream_post_streams_witness :
  let a' := fst (ChatStream_post sample_stream_env (inr (JObj [("prompt", JStr "hello")])) empty_app) in
  tool_state a' = final_state (run_calls [CallSearch]) empty_state /\
  (exists X, current_tools_used (tool_state a') = ([] ++ X)%list) /\
  (exists Y, current_request_sessions (tool_state a') = (Y ++ [])%list) /\
  exists r, snd (ChatStream_post sample_stream_env (inr (JObj [("prompt", JStr "hello")])) empty_app)
              = ViewOk r /\
    stream_text r = String.concat "" ["Hel"; ""; "lo"] /\
    chunks_received r = Z.of_nat (length (filter (fun c => negb (String.eqb c "")) ["Hel"; ""; "lo"])).
Proof.
  exact (ChatStream_post_streams sample_stream_env [("prompt", JStr "hello")] empty_app
           (JStr "hello") (HStr "default") eq_refl eq_refl eq_refl eq_refl).
Defined.

(** X21 ([ChatStream.post]): without an agent, a valid request fails with 500
    and changes nothing. For a known session the message is about [run_stream],
    and for a new one it is about [get_new_thread]. *)
Theorem ChatStream_post_without_agent sv l a k :
  stream_agent_configured sv = false ->
  truthy (match obj_lookup l "prompt" with Some p => p | None => JStr "" end) = true ->
  py_hash_key (match obj_lookup l "session_id" with Some v => v | None => JStr "default" end)
    = inr k ->
  ChatStream_post sv (inr (JObj l)) a
  = (a, ViewError 500 (match thread_lookup (conversation_threads a) k with
                       | Some _ => "'NoneType' object has no attribute 'run_stream'"
                       | None => "'NoneType' object has no attribute 'get_new_thread'"
                       end)).
Proof.
  intros Hc Ht Hk. unfold ChatStream_post. cbn [py_get].
  destruct (obj_lookup l "prompt"); destruct (obj_lookup l "session_id"); rewrite Ht; cbn [negb];
    rewrite Hk; destruct (thread_lookup (conversation_threads a) k);
    rewrite ?Hc; try reflexivity;
    unfold stream_body; rewrite Hc; destruct a; reflexivity.
Qed.

(** The hypotheses of [ChatStream_post_without_agent] hold at a concrete input. *)
Lemma ChatStream_post_without_agent_witness :
  ChatStream_post (mk_stream_env false 9 [] [] None) (inr (JObj [("prompt", JStr "hello")])) threaded_app
  = (threaded_app, ViewError 500 "'NoneType' object has no attribute 'run_stream'").
Proof.
  exact (ChatStream_post_without_agent (mk_stream_env false 9 [] [] None) [("prompt", JStr "hello")]
           threaded_app (HStr "default") eq_refl eq_refl eq_refl).
Defined.
